(** * SDN BLE control-plane bridge: a shallow embedding of [sdn_ble_bridge.py]

    The bridge receives radio-requests from a phone over BLE notifications,
    runs [adb shell svc ...] for them, queues a confirmation and writes the
    queued confirmations back to the phone from its main loop.

    The embedding is a state-and-exception monad over a record holding the
    controller's fields, the module-level [running] flag and the trace of
    observable effects (log lines, subprocess invocations, sleeps, GATT
    writes).  What the outside world answers (the exit status of a
    subprocess, the fate of a GATT write, the notifications that arrive while
    a coroutine is suspended) is supplied by oracles, so every theorem holds
    for every behaviour of the outside world. *)

From Stdlib Require Import String Ascii List ZArith NArith QArith Bool Lia DecimalString.
From Stdlib.Strings Require Import Byte.
Import ListNotations.

Set Warnings "-register-all".

Close Scope Q_scope.

Local Open Scope list_scope.
Local Open Scope string_scope.

(* ------------------------------------------------------------------ *)
(** ** Python strings

    A Python [str] is represented by its UTF-8 bytes, so concatenation and
    equality of [str] values are concatenation and equality of [string]s. *)

Definition byte_code (c : ascii) : N := N_of_ascii c.

Definition between (lo hi n : N) : bool := (lo <=? n)%N && (n <=? hi)%N.

(** [skip_space s] is the rest of [s] after one leading whitespace
    character, for the characters Python's [str.isspace] accepts:
    U+0009..U+000D, U+001C..U+0020, U+0085, U+00A0, U+1680, U+2000..U+200A,
    U+2028, U+2029, U+202F, U+205F and U+3000. *)
Definition skip_space (s : string) : option string :=
  match s with
  | EmptyString => None
  | String c0 r0 =>
    let b0 := byte_code c0 in
    if between 9 13 b0 || between 28 32 b0 then Some r0 else
    match r0 with
    | EmptyString => None
    | String c1 r1 =>
      let b1 := byte_code c1 in
      if (b0 =? 194)%N && ((b1 =? 133)%N || (b1 =? 160)%N) then Some r1 else
      match r1 with
      | EmptyString => None
      | String c2 r2 =>
        let b2 := byte_code c2 in
        if (b0 =? 225)%N && (b1 =? 154)%N && (b2 =? 128)%N then Some r2
        else if (b0 =? 226)%N && (b1 =? 128)%N
                && (between 128 138 b2 || between 168 169 b2 || (b2 =? 175)%N)
             then Some r2
        else if (b0 =? 226)%N && (b1 =? 129)%N && (b2 =? 159)%N then Some r2
        else if (b0 =? 227)%N && (b1 =? 128)%N && (b2 =? 128)%N then Some r2
        else None
      end
    end
  end.

Definition nonempty (s : string) : bool :=
  match s with EmptyString => false | String _ _ => true end.

Fixpoint lstrip_from (fuel : nat) (s : string) : string :=
  match fuel with
  | O => s
  | S fuel' =>
    match skip_space s with
    | Some rest => lstrip_from fuel' rest
    | None => s
    end
  end.

Definition lstrip (s : string) : string := lstrip_from (String.length s) s.

Fixpoint rstrip (s : string) : string :=
  match s with
  | EmptyString => EmptyString
  | String c rest => if nonempty (lstrip s) then String c (rstrip rest) else EmptyString
  end.

(** [str.strip()] *)
Definition py_strip (s : string) : string := rstrip (lstrip s).

Definition flush_word (word : string) : list string :=
  if nonempty word then [word] else [].

Fixpoint split_from (fuel : nat) (s word : string) : list string :=
  match fuel with
  | O => flush_word word
  | S fuel' =>
    match skip_space s with
    | Some rest => (flush_word word ++ split_from fuel' rest EmptyString)%list
    | None =>
      match s with
      | EmptyString => flush_word word
      | String c rest => split_from fuel' rest (word ++ String c EmptyString)
      end
    end
  end.

(** [str.split()] with no argument: the maximal runs of non-whitespace. *)
Definition py_split (s : string) : list string :=
  split_from (S (String.length s)) s EmptyString.

(** [s[:n]], counted in code points: a byte [10xxxxxx] continues the
    code point before it. *)
Fixpoint py_prefix (n : nat) (s : string) : string :=
  match s with
  | EmptyString => EmptyString
  | String c rest =>
    if between 128 191 (byte_code c) then String c (py_prefix n rest)
    else match n with
         | O => EmptyString
         | S n' => String c (py_prefix n' rest)
         end
  end.

(* ------------------------------------------------------------------ *)
(** ** Python values

    The values that reach the bridge are those [json.loads] builds and the
    dict literals of [handle_radio_request].  A dict keeps its insertion
    order; a float is kept as the literal it was read from. *)

Inductive pyval : Type :=
| PyNone
| PyBool (b : bool)
| PyInt (z : Z)
| PyFloat (literal : string)
| PyStr (s : string)
| PyList (items : list pyval)
| PyDict (entries : list (string * pyval)).

Fixpoint dict_lookup (key : string) (entries : list (string * pyval)) : option pyval :=
  match entries with
  | [] => None
  | (k, v) :: rest => if String.eqb k key then Some v else dict_lookup key rest
  end.

(** [value == "literal"]: only a [str] equals a [str]. *)
Definition py_eq_str (v : pyval) (s : string) : bool :=
  match v with
  | PyStr t => String.eqb t s
  | _ => false
  end.

Definition type_name (v : pyval) : string :=
  match v with
  | PyNone => "NoneType"
  | PyBool _ => "bool"
  | PyInt _ => "int"
  | PyFloat _ => "float"
  | PyStr _ => "str"
  | PyList _ => "list"
  | PyDict _ => "dict"
  end.

Definition is_dict (v : pyval) : bool :=
  match v with PyDict _ => true | _ => false end.

(* ------------------------------------------------------------------ *)
(** ** Exceptions, events, state *)

Inductive exn_class : Type :=
| TimeoutExpired
| OSError
| UnicodeDecodeError
| JSONDecodeError
| AttributeError
| BleakError
| OtherException (name : string).

(** An instance of a subclass of [Exception], with its [str(e)]. *)
Record exn : Type := mk_exn { exn_kind : exn_class; exn_str : string }.

Definition is_timeout (e : exn) : bool :=
  match exn_kind e with TimeoutExpired => true | _ => false end.

Inductive level : Type := INFO | WARNING | ERROR.

Inductive event : Type :=
| Log (lv : level) (msg : string)
| Subprocess (argv : list string) (timeout : Z)
| Sleep (seconds : Q)
| AsyncSleep (seconds : Q)
| GattWrite (uuid : string) (data : list byte) (response : bool).

(** What the BLE stack and the operating system do while a coroutine is
    suspended: they invoke a subscribed notification callback, drop the
    link, or deliver SIGINT/SIGTERM. *)
Inductive occurrence : Type :=
| ResponseNotify (data : list byte)
| RadioRequestNotify (data : list byte)
| LinkLost
| Signal.

Record state : Type := mk_state {
  client : option bool;            (* self.client; [Some up]: a BleakClient whose is_connected is [up] *)
  connected : bool;                (* self.connected *)
  pending_commands : list pyval;   (* self.pending_commands *)
  running : bool;                  (* the module-level flag *)
  trace : list event;              (* effects so far, oldest first *)
  schedule : list (list occurrence)  (* the occurrences of the coming suspensions *)
}.

Definition set_client (c : option bool) (st : state) : state :=
  mk_state c (connected st) (pending_commands st) (running st) (trace st) (schedule st).
Definition set_pending (q : list pyval) (st : state) : state :=
  mk_state (client st) (connected st) q (running st) (trace st) (schedule st).
Definition set_running (b : bool) (st : state) : state :=
  mk_state (client st) (connected st) (pending_commands st) b (trace st) (schedule st).
Definition set_trace (t : list event) (st : state) : state :=
  mk_state (client st) (connected st) (pending_commands st) (running st) t (schedule st).
Definition set_schedule (s : list (list occurrence)) (st : state) : state :=
  mk_state (client st) (connected st) (pending_commands st) (running st) (trace st) s.

Definition record (ev : event) (st : state) : state :=
  set_trace (trace st ++ [ev])%list st.

Definition is_subprocess (ev : event) : bool :=
  match ev with Subprocess _ _ => true | _ => false end.
Definition is_sleep (ev : event) : bool :=
  match ev with Sleep _ => true | _ => false end.

(** The number of executor invocations in a trace. *)
Definition exec_count (t : list event) : nat := length (filter is_subprocess t).

(** The payloads written to the peer, in order. *)
Fixpoint transmissions (t : list event) : list (list byte) :=
  match t with
  | [] => []
  | GattWrite _ data _ :: rest => data :: transmissions rest
  | _ :: rest => transmissions rest
  end.

(** [not self.client or not self.client.is_connected] is false. *)
Definition link_up (st : state) : bool :=
  match client st with Some up => up | None => false end.

(* ------------------------------------------------------------------ *)
(** ** The monad *)

Inductive result (A : Type) : Type :=
| Return (a : A)
| Raise (e : exn)
| OutOfFuel.
Arguments Return {A} a.
Arguments Raise {A} e.
Arguments OutOfFuel {A}.

Definition M (A : Type) : Type := state -> result A * state.

Definition ret {A} (a : A) : M A := fun st => (Return a, st).

Definition raise {A} (e : exn) : M A := fun st => (Raise e, st).

Definition bind {A B} (m : M A) (k : A -> M B) : M B :=
  fun st =>
    match m st with
    | (Return a, st') => k a st'
    | (Raise e, st') => (Raise e, st')
    | (OutOfFuel, st') => (OutOfFuel, st')
    end.

(** [try: body  except Exception as e: handler e].  The effects of the body
    up to the raise stay. *)
Definition try_except {A} (body : M A) (handler : exn -> M A) : M A :=
  fun st =>
    match body st with
    | (Raise e, st') => handler e st'
    | other => other
    end.

Declare Scope py_scope.
Delimit Scope py_scope with py.
Notation "x <- c1 ;; c2" := (bind c1 (fun x => c2))
  (at level 61, c1 at next level, right associativity) : py_scope.
Notation "c1 ;; c2" := (bind c1 (fun _ => c2))
  (at level 61, right associativity) : py_scope.
Local Open Scope py_scope.

Definition emit (ev : event) : M unit := fun st => (Return tt, record ev st).

Definition log_info (msg : string) : M unit := emit (Log INFO msg).
Definition log_warning (msg : string) : M unit := emit (Log WARNING msg).
Definition log_error (msg : string) : M unit := emit (Log ERROR msg).
Definition time_sleep (seconds : Q) : M unit := emit (Sleep seconds).

Definition when (b : bool) (m : M unit) : M unit := if b then m else ret tt.

(* ------------------------------------------------------------------ *)
(** ** The library and the outside world *)

(** The library functions the bridge calls on data. *)
Class PyRuntime : Type := {
  bytes_decode : list byte -> exn + string;    (* data.decode("utf-8") *)
  json_loads : string -> exn + pyval;
  json_dumps : pyval -> string;
  py_repr : pyval -> string                    (* str() of a value that is not a str *)
}.

(** A finished subprocess: [returncode] and the captured [stdout]. *)
Record completed : Type := mk_completed { returncode : Z; stdout : string }.

(** The answers of the outside world.  [subprocess_result n argv timeout] is
    what the [n]-th call of [subprocess.run] does; [write_result n data] is
    the exception the [n]-th [write_gatt_char] raises, if any. *)
Class World : Type := {
  subprocess_result : nat -> list string -> Z -> exn + completed;
  write_result : nat -> list byte -> option exn
}.

Definition of_sum {A} (r : exn + A) : M A :=
  match r with
  | inl e => raise e
  | inr a => ret a
  end.

(** [f"{v}"] *)
Definition py_str {R : PyRuntime} (v : pyval) : string :=
  match v with
  | PyStr s => s
  | _ => py_repr v
  end.

(** [obj.get(key, default)] *)
Definition py_get (obj : pyval) (key : string) (default : pyval) : M pyval :=
  match obj with
  | PyDict entries =>
    ret (match dict_lookup key entries with Some v => v | None => default end)
  | _ => raise (mk_exn AttributeError
                  ("'" ++ type_name obj ++ "' object has no attribute 'get'"))
  end.

(** [subprocess.run(argv, capture_output=True, text=True, timeout=...)] *)
Definition subprocess_run {W : World} (argv : list string) (timeout : Z) : M completed :=
  fun st =>
    (match subprocess_result (exec_count (trace st)) argv timeout with
     | inl e => Raise e
     | inr c => Return c
     end,
     record (Subprocess argv timeout) st).

(* ------------------------------------------------------------------ *)
(** ** Configuration *)

Definition SDN_SERVICE_UUID := "a1b2c3d4-e5f6-7890-abcd-ef1234567890".
Definition SDN_CMD_WRITE_UUID := "a1b2c3d4-0001-7890-abcd-ef1234567890".
Definition SDN_RESPONSE_UUID := "a1b2c3d4-0002-7890-abcd-ef1234567890".
Definition SDN_RADIO_REQ_UUID := "a1b2c3d4-0003-7890-abcd-ef1234567890".
Definition ADB_CMD := "adb".

(* ------------------------------------------------------------------ *)
(** ** ADB helpers *)

Definition adb_exec {W : World} (command : string) : M (bool * string) :=
  let full_cmd := ADB_CMD ++ " shell " ++ command in
  log_info ("ADB exec: " ++ full_cmd) ;;
  try_except
    (result <- subprocess_run (py_split full_cmd) 10 ;;
     let output := py_strip (stdout result) in
     let success := (returncode result =? 0)%Z in
     when (nonempty output) (log_info ("ADB output: " ++ output)) ;;
     ret (success, output))
    (fun e =>
       if is_timeout e then
         log_error "ADB timeout" ;;
         ret (false, "timeout")
       else
         log_error ("ADB error: " ++ exn_str e) ;;
         ret (false, exn_str e)).

(** The dict literal [{"action": ..., "sessionId": "ble-bridge", "reason": ...}]. *)
Definition confirmation (action reason : string) : pyval :=
  PyDict [("action", PyStr action);
          ("sessionId", PyStr "ble-bridge");
          ("reason", PyStr reason)].

Definition handle_radio_request {R : PyRuntime} {W : World} (action reason : pyval) : M pyval :=
  log_info ("Radio request: action=" ++ py_str action ++ ", reason=" ++ py_str reason) ;;
  if py_eq_str action "enable_bt" then
    r <- adb_exec "svc bluetooth enable" ;;
    if fst r then
      time_sleep (inject_Z 2) ;;
      ret (confirmation "BT_READY" "ADB enable_bt OK")
    else
      ret (confirmation "BT_READY" "ADB enable_bt FAILED")
  else if py_eq_str action "disable_bt" then
    r <- adb_exec "svc bluetooth disable" ;;
    ret (confirmation "BT_DISABLED"
           ("ADB disable_bt " ++ (if fst r then "OK" else "FAILED")))
  else if py_eq_str action "enable_wifi" then
    r <- adb_exec "svc wifi enable" ;;
    if fst r then
      time_sleep (inject_Z 3) ;;
      ret (confirmation "WIFI_READY" "ADB enable_wifi OK")
    else
      ret (confirmation "WIFI_READY" "ADB enable_wifi FAILED")
  else if py_eq_str action "disable_wifi" then
    r <- adb_exec "svc wifi disable" ;;
    ret (confirmation "WIFI_DISABLED"
           ("ADB disable_wifi " ++ (if fst r then "OK" else "FAILED")))
  else
    log_warning ("Radio request desconocido: " ++ py_str action) ;;
    ret (confirmation "UNKNOWN" ("Unknown action: " ++ py_str action)).

Definition signal_handler : M unit :=
  log_info "Señal recibida, cerrando..." ;;
  fun st => (Return tt, set_running false st).

(* ------------------------------------------------------------------ *)
(** ** The BLE stack and more of Python's text functions *)

Module Bleak.

Record characteristic : Type := mk_characteristic {
  char_uuid : string;                (* char.uuid *)
  properties : list string           (* char.properties *)
}.

Record service : Type := mk_service {
  service_uuid : string;             (* service.uuid *)
  characteristics : list characteristic
}.

Record device : Type := mk_device {
  name : option string;              (* d.name, None when the device has none *)
  address : string;                  (* d.address *)
  rssi : Z;                          (* d.rssi *)
  uuids : option (list string)       (* d.metadata.get("uuids"), None when absent *)
}.

End Bleak.

(** The answers of the BLE stack: the devices a scan discovers, whether
    [client.connect()] raises and, if not, the value of [is_connected] after
    it, the services of the connected client, and the exception, if any, of
    [start_notify] on a characteristic and of [client.disconnect()]. *)
Class Stack : Type := {
  discover : Q -> exn + list Bleak.device;
  client_connect : string -> Q -> exn + bool;
  client_services : string -> list Bleak.service;
  start_notify : string -> string -> option exn;
  client_disconnect : option exn
}.

(** The text functions that are not computed here. *)
Class PyText : Type := {
  unicode_lower : string -> string;   (* str.lower() of text with a character above U+007F *)
  float_str : Q -> string             (* str() of a float *)
}.

Fixpoint is_ascii (s : string) : bool :=
  match s with
  | EmptyString => true
  | String c rest => (byte_code c <? 128)%N && is_ascii rest
  end.

Fixpoint ascii_lower (s : string) : string :=
  match s with
  | EmptyString => EmptyString
  | String c rest =>
    String (if between 65 90 (byte_code c) then ascii_of_N (byte_code c + 32) else c)
           (ascii_lower rest)
  end.

(** [str.lower()] *)
Definition py_lower {T : PyText} (s : string) : string :=
  if is_ascii s then ascii_lower s else unicode_lower s.

(** [needle in hay], for two [str]. *)
Fixpoint py_in (needle hay : string) : bool :=
  String.prefix needle hay
  || match hay with
     | EmptyString => false
     | String _ rest => py_in needle rest
     end.

(** [str()] of an [int]. *)
Definition int_str (z : Z) : string := DecimalString.NilZero.string_of_int (Z.to_int z).

(** The number of code points of a UTF-8 string: its bytes that are not
    continuation bytes. *)
Fixpoint code_point_count (s : string) : nat :=
  match s with
  | EmptyString => 0
  | String c rest =>
    if between 128 191 (byte_code c) then code_point_count rest
    else S (code_point_count rest)
  end.

Fixpoint spaces (n : nat) : string :=
  match n with
  | O => EmptyString
  | S n' => String " " (spaces n')
  end.

(** [f"{s:20s}"]: [s] padded on the right to 20 code points. *)
Definition ljust20 (s : string) : string := s ++ spaces (20 - code_point_count s).

(** [name or 'Unknown'] *)
Definition name_or_unknown (n : option string) : string :=
  match n with
  | Some text => if nonempty text then text else "Unknown"
  | None => "Unknown"
  end.

(** [name or ""] *)
Definition name_or_empty (n : option string) : string :=
  match n with
  | Some text => text
  | None => EmptyString
  end.

(** [f"{name}"] for an optional name. *)
Definition name_str (n : option string) : string :=
  match n with
  | Some text => text
  | None => "None"
  end.

(** [try: body  finally: final].  The final part runs whether the body
    returned or raised; what the body raised is raised again after it,
    unless the final part raises itself. *)
Definition try_finally {A} (body : M A) (final : M unit) : M A :=
  fun st =>
    match body st with
    | (Return a, st') =>
      match final st' with
      | (Return _, st'') => (Return a, st'')
      | (Raise e, st'') => (Raise e, st'')
      | (OutOfFuel, st'') => (OutOfFuel, st'')
      end
    | (Raise e, st') =>
      match final st' with
      | (Return _, st'') => (Raise e, st'')
      | (Raise e', st'') => (Raise e', st'')
      | (OutOfFuel, st'') => (OutOfFuel, st'')
      end
    | (OutOfFuel, st') => (OutOfFuel, st')
    end.

(* ------------------------------------------------------------------ *)
(** ** The BLE GATT client *)

Module SdnBleController.

(** [__init__] and the initial value of the module-level flag. *)
Definition init : state := mk_state None false [] true [] [].

Definition append_pending (item : pyval) : M unit :=
  fun st => (Return tt, set_pending (pending_commands st ++ [item])%list st).

Definition _on_response_notify {R : PyRuntime} (sender : string) (data : list byte) : M unit :=
  try_except
    (json_str <- of_sum (bytes_decode data) ;;
     log_info ("📱 Response: " ++ py_prefix 200 json_str))
    (fun e => log_error ("Error parseando response: " ++ exn_str e)).

Definition _on_radio_request_notify {R : PyRuntime} {W : World}
    (sender : string) (data : list byte) : M unit :=
  try_except
    (json_str <- of_sum (bytes_decode data) ;;
     log_info ("📱 Radio Request: " ++ json_str) ;;
     request <- of_sum (json_loads json_str) ;;
     action <- py_get request "action" (PyStr "unknown") ;;
     reason <- py_get request "reason" (PyStr EmptyString) ;;
     confirmation <- handle_radio_request action reason ;;
     append_pending confirmation)
    (fun e => log_error ("Error procesando radio request: " ++ exn_str e)).

(** One occurrence during a suspension.  A callback runs to its end on the
    event loop; an exception leaving it would be consumed by the loop. *)
Definition occur {R : PyRuntime} {W : World} (o : occurrence) (st : state) : state :=
  match o with
  | ResponseNotify data => snd (_on_response_notify SDN_RESPONSE_UUID data st)
  | RadioRequestNotify data => snd (_on_radio_request_notify SDN_RADIO_REQ_UUID data st)
  | LinkLost =>
    match client st with
    | Some _ => set_client (Some false) st
    | None => st
    end
  | Signal => snd (signal_handler st)
  end.

Definition occur_all {R : PyRuntime} {W : World} (os : list occurrence) (st : state) : state :=
  fold_left (fun s o => occur o s) os st.

(** A suspension point ([await]): the next entry of the schedule happens.
    Past the end of the schedule nothing happens. *)
Definition suspend {R : PyRuntime} {W : World} : M unit :=
  fun st =>
    match schedule st with
    | [] => (Return tt, st)
    | os :: later => (Return tt, occur_all os (set_schedule later st))
    end.

Definition asyncio_sleep {R : PyRuntime} {W : World} (seconds : Q) : M unit :=
  emit (AsyncSleep seconds) ;; suspend.

(** [await self.client.write_gatt_char(uuid, data, response=...)] *)
Definition write_gatt_char {R : PyRuntime} {W : World}
    (uuid : string) (data : list byte) (response : bool) : M unit :=
  fun st =>
    (emit (GattWrite uuid data response) ;;
     suspend ;;
     match write_result (length (transmissions (trace st))) data with
     | Some e => raise e
     | None => ret tt
     end) st.

Definition send_command {R : PyRuntime} {W : World} (command : pyval) : M unit :=
  fun st =>
    if negb (link_up st) then
      log_error "No conectado — no se puede enviar comando" st
    else
      let json_bytes := list_byte_of_string (json_dumps command) in
      try_except
        (write_gatt_char SDN_CMD_WRITE_UUID json_bytes true ;;
         action <- py_get command "action" (PyStr "unknown") ;;
         log_info ("→ Comando enviado: " ++ py_str action))
        (fun e => log_error ("Error enviando comando: " ++ exn_str e)) st.

(** The inner loop of [run_loop]:
    [while self.pending_commands: cmd = self.pending_commands.pop(0); await self.send_command(cmd)]. *)
Fixpoint send_pending {R : PyRuntime} {W : World} (fuel : nat) (st : state) : result unit * state :=
  match pending_commands st with
  | [] => (Return tt, st)
  | cmd :: rest =>
    match fuel with
    | O => (OutOfFuel, st)
    | S fuel' => (send_command cmd ;; send_pending fuel') (set_pending rest st)
    end
  end.

Definition is_radio_request (o : occurrence) : bool :=
  match o with RadioRequestNotify _ => true | _ => false end.

Definition is_link_lost (o : occurrence) : bool :=
  match o with LinkLost => true | _ => false end.

(** The number of radio-requests still to arrive. *)
Definition arrivals (sched : list (list occurrence)) : nat :=
  length (filter is_radio_request (concat sched)).

(** Iterations that empty the queue: one per queued item and one per
    radio-request that can still arrive. *)
Definition pending_budget (st : state) : nat :=
  length (pending_commands st) + arrivals (schedule st).

(** [while running and self.client and self.client.is_connected: ...] *)
Fixpoint main_loop {R : PyRuntime} {W : World} (fuel : nat) (st : state) : result unit * state :=
  if running st && link_up st then
    match fuel with
    | O => (OutOfFuel, st)
    | S fuel' =>
      ((fun s => send_pending (pending_budget s) s) ;;
       asyncio_sleep (1 # 2)%Q ;;
       main_loop fuel') st
    end
  else (Return tt, st).

Definition run_loop {R : PyRuntime} {W : World} (fuel : nat) : M unit :=
  log_info "═══ BLE Bridge activo — esperando radio-requests del teléfono ═══" ;;
  log_info "  Ctrl+C para salir" ;;
  main_loop fuel ;;
  log_info "Loop terminado".

(** *** Discovery and the life of the connection *)

Definition is_nil {A} (l : list A) : bool :=
  match l with [] => true | _ :: _ => false end.

Definition device_text (d : Bleak.device) : string :=
  name_or_unknown (Bleak.name d) ++ " (" ++ Bleak.address d ++ ") RSSI="
  ++ int_str (Bleak.rssi d).

(** The loop [for d in discovered: ...] of [scan_for_sdn_devices]. *)
Fixpoint examine {T : PyText} (discovered devices : list Bleak.device)
  : M (list Bleak.device) :=
  match discovered with
  | [] => ret devices
  | d :: rest =>
    let uuids := match Bleak.uuids d with Some l => l | None => [] end in
    let uuids_lower := map py_lower uuids in
    if existsb (String.eqb (py_lower SDN_SERVICE_UUID)) uuids_lower then
      log_info ("  ✓ SDN Device: " ++ device_text d) ;;
      examine rest (devices ++ [d])%list
    else
      let name := py_lower (name_or_empty (Bleak.name d)) in
      when (py_in "sdn" name || py_in "xiaomi" name)
           (log_info ("  ? Posible: " ++ device_text d)) ;;
      examine rest devices
  end.

Definition scan_for_sdn_devices {T : PyText} {S : Stack} {R : PyRuntime} {W : World}
    (timeout : Q) : M (list Bleak.device) :=
  log_info ("Escaneando dispositivos SDN (timeout=" ++ float_str timeout ++ "s)...") ;;
  discovered <- (suspend ;; of_sum (discover timeout)) ;;
  devices <- examine discovered [] ;;
  when (is_nil devices) (log_warning "No se encontraron dispositivos SDN") ;;
  ret devices.

Definition assign_client (c : option bool) : M unit :=
  fun st => (Return tt, set_client c st).

(** [self.connected = b] *)
Definition assign_connected (b : bool) : M unit :=
  fun st =>
    (Return tt,
     mk_state (client st) b (pending_commands st) (running st) (trace st) (schedule st)).

Fixpoint log_characteristics (chars : list Bleak.characteristic) : M unit :=
  match chars with
  | [] => ret tt
  | c :: rest =>
    let props := String.concat "," (Bleak.properties c) in
    log_info ("    Char: " ++ Bleak.char_uuid c ++ " [" ++ props ++ "]") ;;
    log_characteristics rest
  end.

Fixpoint log_services (services : list Bleak.service) : M unit :=
  match services with
  | [] => ret tt
  | service :: rest =>
    log_info ("  Service: " ++ Bleak.service_uuid service) ;;
    log_characteristics (Bleak.characteristics service) ;;
    log_services rest
  end.

(** [await self.client.start_notify(uuid, callback)] *)
Definition await_start_notify {S : Stack} {R : PyRuntime} {W : World}
    (address uuid : string) : M unit :=
  suspend ;;
  match start_notify address uuid with
  | Some e => raise e
  | None => ret tt
  end.

Definition connect {S : Stack} {R : PyRuntime} {W : World}
    (address : string) (timeout : Q) : M unit :=
  log_info ("Conectando a " ++ address ++ "...") ;;
  assign_client (Some false) ;;
  suspend ;;
  up <- of_sum (client_connect address timeout) ;;
  assign_client (Some up) ;;
  (fun st =>
     if negb (link_up st)
     then raise (mk_exn (OtherException "ConnectionError")
                        ("No se pudo conectar a " ++ address)) st
     else ret tt st) ;;
  assign_connected true ;;
  log_info ("✓ Conectado a " ++ address) ;;
  log_services (client_services address) ;;
  try_except
    (await_start_notify address SDN_RESPONSE_UUID ;;
     log_info "✓ Suscrito a RESPONSE notifications")
    (fun e => log_warning ("No se pudo suscribir a RESPONSE: " ++ exn_str e)) ;;
  try_except
    (await_start_notify address SDN_RADIO_REQ_UUID ;;
     log_info "✓ Suscrito a RADIO_REQUEST notifications")
    (fun e => log_warning ("No se pudo suscribir a RADIO_REQUEST: " ++ exn_str e)).

Definition disconnect {S : Stack} {R : PyRuntime} {W : World} : M unit :=
  (fun st =>
     if link_up st then
       (try_except
          (suspend ;;
           match client_disconnect with
           | Some e => raise e
           | None => assign_client (Some false)
           end)
          (fun _ => ret tt) ;;
        log_info "Desconectado del GATT Server") st
     else ret tt st) ;;
  assign_connected false.

End SdnBleController.

(* ------------------------------------------------------------------ *)
(** ** Main *)

Module Cli.

(** The parsed command line: [--scan], [--mac], [--send], [--timeout]. *)
Record args : Type := mk_args {
  scan : bool;
  mac : option string;
  send : option string;
  timeout : Q
}.

End Cli.

(** The truth value of an optional [str]: neither [None] nor empty. *)
Definition truthy (o : option string) : bool :=
  match o with
  | Some text => nonempty text
  | None => false
  end.

Definition newline : string := String "010"%char EmptyString.

Definition is_json_error (e : exn) : bool :=
  match exn_kind e with JSONDecodeError => true | _ => false end.

(** The lines [main] prints after a scan. *)
Definition scan_report (devices : list Bleak.device) : list string :=
  if SdnBleController.is_nil devices then
    [newline ++ "No se encontraron dispositivos SDN.";
     "Asegúrate de que:";
     "  1. BT está encendido en el teléfono";
     "  2. La app SDN está corriendo con GATT Server activo";
     "  3. 'ble start' ejecutado en la consola de la app"]
  else
    (newline ++ int_str (Z.of_nat (length devices)) ++ " dispositivo(s) SDN encontrado(s):")
    :: map (fun d => "  " ++ ljust20 (name_or_unknown (Bleak.name d)) ++ " "
                     ++ Bleak.address d ++ "  RSSI=" ++ int_str (Bleak.rssi d))
           devices.

(** The part of [main] from the connection on, for the address it has
    settled on.  Its value is what it printed. *)
Definition connect_and_serve {S : Stack} {R : PyRuntime} {W : World}
    (fuel : nat) (a : Cli.args) (target_address : string) : M (list string) :=
  joined <- try_except
              (SdnBleController.connect target_address (inject_Z 15) ;; ret true)
              (fun e => log_error ("Error conectando: " ++ exn_str e) ;; ret false) ;;
  if negb joined then ret []
  else if truthy (Cli.send a) then
    try_finally
      (try_except
         (command <- of_sum (json_loads (name_or_empty (Cli.send a))) ;;
          SdnBleController.send_command command ;;
          log_info "Comando enviado, esperando 3s para response..." ;;
          SdnBleController.asyncio_sleep (inject_Z 3))
         (fun e =>
            if is_json_error e then log_error ("JSON inválido: " ++ exn_str e)
            else raise e))
      SdnBleController.disconnect ;;
    ret []
  else
    try_finally
      (try_except
         (SdnBleController.run_loop fuel)
         (fun e => log_error ("Error en loop: " ++ exn_str e)))
      (SdnBleController.disconnect ;; log_info "Bridge cerrado") ;;
    ret [].

(** [controller = SdnBleController()]: a new controller in the running
    process. *)
Definition fresh (st : state) : state :=
  mk_state None false [] (running st) (trace st) (schedule st).

(** [main], for parsed arguments.  Its value is what it printed, line by
    line; [fuel] bounds the passes of [run_loop].  KeyboardInterrupt is not
    modelled: the module replaces the handler of SIGINT. *)
Definition main {T : PyText} {S : Stack} {R : PyRuntime} {W : World}
    (fuel : nat) (a : Cli.args) : M (list string) :=
  (fun st => (Return tt, fresh st)) ;;
  if Cli.scan a then
    devices <- SdnBleController.scan_for_sdn_devices (Cli.timeout a) ;;
    ret (scan_report devices)
  else if truthy (Cli.mac a) then
    connect_and_serve fuel a (name_or_empty (Cli.mac a))
  else
    log_info "Buscando teléfono SDN..." ;;
    devices <- SdnBleController.scan_for_sdn_devices (Cli.timeout a) ;;
    match devices with
    | [] =>
      log_error "No se encontró el teléfono SDN. ¿Está advertiseando?" ;;
      log_info "Tip: Ejecuta 'ble start' en la consola de la app" ;;
      ret []
    | first :: _ =>
      let target_address := Bleak.address first in
      log_info ("Usando primer dispositivo: " ++ name_str (Bleak.name first)
                ++ " (" ++ target_address ++ ")") ;;
      connect_and_serve fuel a target_address
    end.

(* ------------------------------------------------------------------ *)
(** ** A reference runtime

    An executable [PyRuntime], used to run the bridge on concrete payloads.
    It decodes strict UTF-8, reads the JSON grammar of [json.loads] and
    prints with the defaults of [json.dumps] ([ensure_ascii], separators
    [", "] and [": "]).  The texts of its exceptions are shortened, a float
    is printed as the literal it was read from, and [repr] leaves every
    character above U+007F as it is. *)

Module Reference.

(** *** UTF-8 *)

Definition continuation (b : N) : bool := between 128 191 b.

Fixpoint utf8_valid (bs : list N) : bool :=
  match bs with
  | [] => true
  | b0 :: r0 =>
    if (b0 <=? 127)%N then utf8_valid r0
    else if between 194 223 b0 then
      match r0 with
      | b1 :: r1 => continuation b1 && utf8_valid r1
      | _ => false
      end
    else if between 224 239 b0 then
      match r0 with
      | b1 :: r1 =>
        match r1 with
        | b2 :: r2 =>
          (if (b0 =? 224)%N then between 160 191 b1
           else if (b0 =? 237)%N then between 128 159 b1
           else continuation b1)
          && continuation b2 && utf8_valid r2
        | _ => false
        end
      | _ => false
      end
    else if between 240 244 b0 then
      match r0 with
      | b1 :: r1 =>
        match r1 with
        | b2 :: r2 =>
          match r2 with
          | b3 :: r3 =>
            (if (b0 =? 240)%N then between 144 191 b1
             else if (b0 =? 244)%N then between 128 143 b1
             else continuation b1)
            && continuation b2 && continuation b3 && utf8_valid r3
          | _ => false
          end
        | _ => false
        end
      | _ => false
      end
    else false
  end.

Definition bytes_decode (data : list byte) : exn + string :=
  if utf8_valid (map Byte.to_N data) then inr (string_of_list_byte data)
  else inl (mk_exn UnicodeDecodeError "'utf-8' codec can't decode bytes").

Definition char (n : N) : string := String (ascii_of_N n) EmptyString.

(** The UTF-8 bytes of a code point (a lone surrogate takes the three
    bytes its number gives). *)
Definition utf8_encode (cp : N) : string :=
  if (cp <? 128)%N then char cp
  else if (cp <? 2048)%N then
    char (192 + cp / 64) ++ char (128 + cp mod 64)
  else if (cp <? 65536)%N then
    char (224 + cp / 4096) ++ char (128 + (cp / 64) mod 64) ++ char (128 + cp mod 64)
  else
    char (240 + cp / 262144) ++ char (128 + (cp / 4096) mod 64)
    ++ char (128 + (cp / 64) mod 64) ++ char (128 + cp mod 64).

(** The code points of a UTF-8 string. *)
Fixpoint code_points (s : string) : list N :=
  match s with
  | EmptyString => []
  | String c0 r0 =>
    let b0 := byte_code c0 in
    if between 194 223 b0 then
      match r0 with
      | String c1 r1 => ((b0 - 192) * 64 + (byte_code c1 - 128))%N :: code_points r1
      | EmptyString => [b0]
      end
    else if between 224 239 b0 then
      match r0 with
      | String c1 (String c2 r2) =>
        ((b0 - 224) * 4096 + (byte_code c1 - 128) * 64 + (byte_code c2 - 128))%N
        :: code_points r2
      | _ => b0 :: code_points r0
      end
    else if between 240 244 b0 then
      match r0 with
      | String c1 (String c2 (String c3 r3)) =>
        ((b0 - 240) * 262144 + (byte_code c1 - 128) * 4096
         + (byte_code c2 - 128) * 64 + (byte_code c3 - 128))%N
        :: code_points r3
      | _ => b0 :: code_points r0
      end
    else b0 :: code_points r0
  end.

(** *** Reading JSON *)

Definition is_json_space (c : ascii) : bool :=
  let b := byte_code c in
  (b =? 32)%N || (b =? 9)%N || (b =? 10)%N || (b =? 13)%N.

Fixpoint skip_blank (s : string) : string :=
  match s with
  | String c rest => if is_json_space c then skip_blank rest else s
  | EmptyString => s
  end.

Fixpoint strip_prefix (p s : string) : option string :=
  match p, s with
  | EmptyString, _ => Some s
  | String a p', String b s' => if Ascii.eqb a b then strip_prefix p' s' else None
  | String _ _, EmptyString => None
  end.

Definition is_digit (c : ascii) : bool := between 48 57 (byte_code c).

Fixpoint take_digits (s : string) : string * string :=
  match s with
  | String c rest =>
    if is_digit c then let (d, r) := take_digits rest in (String c d, r)
    else (EmptyString, s)
  | EmptyString => (EmptyString, EmptyString)
  end.

Fixpoint digits_value (acc : Z) (d : string) : Z :=
  match d with
  | EmptyString => acc
  | String c rest => digits_value (acc * 10 + (Z.of_N (byte_code c) - 48)) rest
  end.

Definition scan_fraction (s : string) : string * string :=
  match s with
  | String c rest =>
    if (byte_code c =? 46)%N then
      let (d, r) := take_digits rest in
      if nonempty d then (String c d, r) else (EmptyString, s)
    else (EmptyString, s)
  | EmptyString => (EmptyString, s)
  end.

Definition scan_sign (s : string) : string * string :=
  match s with
  | String c rest =>
    if (byte_code c =? 43)%N || (byte_code c =? 45)%N
    then (String c EmptyString, rest) else (EmptyString, s)
  | EmptyString => (EmptyString, s)
  end.

Definition scan_exponent (s : string) : string * string :=
  match s with
  | String c rest =>
    if (byte_code c =? 101)%N || (byte_code c =? 69)%N then
      let (sign, r1) := scan_sign rest in
      let (d, r2) := take_digits r1 in
      if nonempty d then (String c (sign ++ d), r2) else (EmptyString, s)
    else (EmptyString, s)
  | EmptyString => (EmptyString, s)
  end.

(** An optional minus, then 0 or a digit string without leading zero, then
    an optional fraction and an optional exponent: an [int] without them, a
    [float] with either. *)
Definition scan_number (s : string) : option (pyval * string) :=
  let (minus, s1) :=
    match s with
    | String c rest =>
      if (byte_code c =? 45)%N then (String c EmptyString, rest) else (EmptyString, s)
    | EmptyString => (EmptyString, s)
    end in
  match s1 with
  | String c rest =>
    if is_digit c then
      let (int_part, s2) :=
        if (byte_code c =? 48)%N then (String c EmptyString, rest) else take_digits s1 in
      let (frac, s3) := scan_fraction s2 in
      let (expo, s4) := scan_exponent s3 in
      if nonempty frac || nonempty expo
      then Some (PyFloat (minus ++ int_part ++ frac ++ expo), s4)
      else Some (PyInt (if nonempty minus then - digits_value 0 int_part
                        else digits_value 0 int_part), s4)
    else None
  | EmptyString => None
  end.

Definition hex_value (c : ascii) : option N :=
  let b := byte_code c in
  if between 48 57 b then Some (b - 48)%N
  else if between 97 102 b then Some (b - 87)%N
  else if between 65 70 b then Some (b - 55)%N
  else None.

Definition scan_hex4 (s : string) : option (N * string) :=
  match s with
  | String c0 (String c1 (String c2 (String c3 rest))) =>
    match hex_value c0, hex_value c1, hex_value c2, hex_value c3 with
    | Some h0, Some h1, Some h2, Some h3 =>
      Some (((h0 * 16 + h1) * 16 + h2) * 16 + h3, rest)%N
    | _, _, _, _ => None
    end
  | _ => None
  end.

(** The code point after [\u], with a following low surrogate joined to a
    high one. *)
Definition scan_unicode (s : string) : option (N * string) :=
  match scan_hex4 s with
  | None => None
  | Some (u, rest) =>
    if between 55296 56319 u then
      match rest with
      | String c0 (String c1 rest2) =>
        if (byte_code c0 =? 92)%N && (byte_code c1 =? 117)%N then
          match scan_hex4 rest2 with
          | None => None
          | Some (u2, rest3) =>
            if between 56320 57343 u2
            then Some (65536 + (u - 55296) * 1024 + (u2 - 56320), rest3)%N
            else Some (u, rest)
          end
        else Some (u, rest)
      | _ => Some (u, rest)
      end
    else Some (u, rest)
  end.

Definition simple_escape (c : ascii) : option N :=
  let b := byte_code c in
  if (b =? 34)%N || (b =? 92)%N || (b =? 47)%N then Some b
  else if (b =? 98)%N then Some 8%N
  else if (b =? 102)%N then Some 12%N
  else if (b =? 110)%N then Some 10%N
  else if (b =? 114)%N then Some 13%N
  else if (b =? 116)%N then Some 9%N
  else None.

(** The text of a string after its opening quote, and what follows the
    closing one. *)
Fixpoint scan_string (fuel : nat) (s acc : string) : option (string * string) :=
  match fuel with
  | O => None
  | S fuel' =>
    match s with
    | EmptyString => None
    | String c rest =>
      let b := byte_code c in
      if (b =? 34)%N then Some (acc, rest)
      else if (b =? 92)%N then
        match rest with
        | EmptyString => None
        | String e rest' =>
          match simple_escape e with
          | Some n => scan_string fuel' rest' (acc ++ char n)
          | None =>
            if (byte_code e =? 117)%N then
              match scan_unicode rest' with
              | Some (cp, rest'') => scan_string fuel' rest'' (acc ++ utf8_encode cp)
              | None => None
              end
            else None
          end
        end
      else if (b <? 32)%N then None
      else scan_string fuel' rest (acc ++ String c EmptyString)
    end
  end.

(** A later value for a key replaces the earlier one in place. *)
Fixpoint dict_set (key : string) (v : pyval) (entries : list (string * pyval))
  : list (string * pyval) :=
  match entries with
  | [] => [(key, v)]
  | (k, w) :: rest =>
    if String.eqb k key then (k, v) :: rest else (k, w) :: dict_set key v rest
  end.

Definition literal (text : string) (v : pyval) (s : string) : option (pyval * string) :=
  match strip_prefix text s with
  | Some rest => Some (v, rest)
  | None => None
  end.

Definition or_else {A} (a b : option A) : option A :=
  match a with
  | Some _ => a
  | None => b
  end.

Fixpoint scan_once (fuel : nat) (s : string) : option (pyval * string) :=
  match fuel with
  | O => None
  | S fuel' =>
    match s with
    | EmptyString => None
    | String c rest =>
      let b := byte_code c in
      if (b =? 34)%N then
        match scan_string (S (String.length rest)) rest EmptyString with
        | Some (text, after) => Some (PyStr text, after)
        | None => None
        end
      else if (b =? 123)%N then
        match skip_blank rest with
        | String c1 r1 =>
          if (byte_code c1 =? 125)%N then Some (PyDict [], r1)
          else scan_members fuel' (skip_blank rest) []
        | EmptyString => None
        end
      else if (b =? 91)%N then
        match skip_blank rest with
        | String c1 r1 =>
          if (byte_code c1 =? 93)%N then Some (PyList [], r1)
          else scan_items fuel' (skip_blank rest) []
        | EmptyString => None
        end
      else
        or_else (literal "null" PyNone s)
        (or_else (literal "true" (PyBool true) s)
        (or_else (literal "false" (PyBool false) s)
        (or_else (scan_number s)
        (or_else (literal "NaN" (PyFloat "NaN") s)
        (or_else (literal "Infinity" (PyFloat "Infinity") s)
                 (literal "-Infinity" (PyFloat "-Infinity") s))))))
    end
  end
with scan_items (fuel : nat) (s : string) (acc : list pyval) : option (pyval * string) :=
  match fuel with
  | O => None
  | S fuel' =>
    match scan_once fuel' s with
    | None => None
    | Some (v, after) =>
      match skip_blank after with
      | String c rest =>
        if (byte_code c =? 93)%N then Some (PyList (acc ++ [v])%list, rest)
        else if (byte_code c =? 44)%N
             then scan_items fuel' (skip_blank rest) (acc ++ [v])%list
        else None
      | EmptyString => None
      end
    end
  end
with scan_members (fuel : nat) (s : string) (acc : list (string * pyval))
  : option (pyval * string) :=
  match fuel with
  | O => None
  | S fuel' =>
    match s with
    | String q rest =>
      if (byte_code q =? 34)%N then
        match scan_string (S (String.length rest)) rest EmptyString with
        | None => None
        | Some (key, after) =>
          match skip_blank after with
          | String colon after' =>
            if (byte_code colon =? 58)%N then
              match scan_once fuel' (skip_blank after') with
              | None => None
              | Some (v, after'') =>
                match skip_blank after'' with
                | String c rest' =>
                  if (byte_code c =? 125)%N then Some (PyDict (dict_set key v acc), rest')
                  else if (byte_code c =? 44)%N
                       then scan_members fuel' (skip_blank rest') (dict_set key v acc)
                  else None
                | EmptyString => None
                end
              end
            else None
          | EmptyString => None
          end
        end
      else None
    | EmptyString => None
    end
  end.

Definition json_loads (s : string) : exn + pyval :=
  match scan_once (2 * String.length s + 2) (skip_blank s) with
  | Some (v, rest) =>
    if nonempty (skip_blank rest) then inl (mk_exn JSONDecodeError "Extra data")
    else inr v
  | None => inl (mk_exn JSONDecodeError "Expecting value")
  end.

(** *** Printing *)

Definition decimal (z : Z) : string := DecimalString.NilZero.string_of_int (Z.to_int z).

Definition hex_digit (n : N) : string :=
  if (n <? 10)%N then char (48 + n) else char (87 + n).

Definition hex2 (n : N) : string := hex_digit ((n / 16) mod 16) ++ hex_digit (n mod 16).

Definition hex4 (n : N) : string := hex2 (n / 256) ++ hex2 (n mod 256).

Definition backslash : string := char 92.
Definition quote : string := char 34.

Definition json_escape (cp : N) : string :=
  if (cp =? 34)%N || (cp =? 92)%N then backslash ++ char cp
  else if (cp =? 10)%N then backslash ++ "n"
  else if (cp =? 13)%N then backslash ++ "r"
  else if (cp =? 9)%N then backslash ++ "t"
  else if (cp =? 8)%N then backslash ++ "b"
  else if (cp =? 12)%N then backslash ++ "f"
  else if between 32 126 cp then char cp
  else if (cp <? 65536)%N then backslash ++ "u" ++ hex4 cp
  else backslash ++ "u" ++ hex4 (55296 + (cp - 65536) / 1024)
       ++ backslash ++ "u" ++ hex4 (56320 + (cp - 65536) mod 1024).

Definition json_quote (s : string) : string :=
  quote ++ String.concat EmptyString (map json_escape (code_points s)) ++ quote.

Fixpoint json_dumps (v : pyval) : string :=
  match v with
  | PyNone => "null"
  | PyBool true => "true"
  | PyBool false => "false"
  | PyInt z => decimal z
  | PyFloat text => text
  | PyStr s => json_quote s
  | PyList items => "[" ++ String.concat ", " (map json_dumps items) ++ "]"
  | PyDict entries =>
    "{" ++ String.concat ", "
             (map (fun kv => json_quote (fst kv) ++ ": " ++ json_dumps (snd kv)) entries)
    ++ "}"
  end.

Fixpoint contains (c : N) (s : string) : bool :=
  match s with
  | EmptyString => false
  | String d rest => (byte_code d =? c)%N || contains c rest
  end.

Definition repr_escape (q : N) (c : ascii) : string :=
  let b := byte_code c in
  if (b =? q)%N || (b =? 92)%N then backslash ++ char b
  else if (b =? 10)%N then backslash ++ "n"
  else if (b =? 13)%N then backslash ++ "r"
  else if (b =? 9)%N then backslash ++ "t"
  else if (b <? 32)%N || (b =? 127)%N then backslash ++ "x" ++ hex2 b
  else char b.

Definition repr_str (s : string) : string :=
  let q := if contains 39 s && negb (contains 34 s) then 34%N else 39%N in
  char q ++ String.concat EmptyString (map (repr_escape q) (list_ascii_of_string s)) ++ char q.

Fixpoint py_repr (v : pyval) : string :=
  match v with
  | PyNone => "None"
  | PyBool true => "True"
  | PyBool false => "False"
  | PyInt z => decimal z
  | PyFloat text => text
  | PyStr s => repr_str s
  | PyList items => "[" ++ String.concat ", " (map py_repr items) ++ "]"
  | PyDict entries =>
    "{" ++ String.concat ", "
             (map (fun kv => repr_str (fst kv) ++ ": " ++ py_repr (snd kv)) entries)
    ++ "}"
  end.

Definition runtime : PyRuntime :=
  Build_PyRuntime bytes_decode json_loads json_dumps py_repr.

(** A world in which every subprocess ends the same way and every write
    has the same fate. *)
Definition world (run : exn + completed) (write : option exn) : World :=
  {| subprocess_result := fun _ _ _ => run;
     write_result := fun _ _ => write |}.

Definition adb_succeeds : World := world (inr (mk_completed 0 EmptyString)) None.

Definition adb_fails : World :=
  world (inr (mk_completed 1 EmptyString))
        (Some (mk_exn BleakError "Not connected")).

Definition adb_times_out : World :=
  world (inl (mk_exn TimeoutExpired "Command timed out after 10 seconds")) None.

Definition adb_missing : World :=
  world (inl (mk_exn OSError "[Errno 2] No such file or directory: 'adb'")) None.

(** A text runtime: [float_str] is exact on whole numbers and cuts other
    values after one decimal; [unicode_lower] leaves the text as it is. *)
Definition text : PyText :=
  {| unicode_lower := fun s => s;
     float_str := fun q =>
       int_str (Qnum q / Z.pos (Qden q)) ++ "."
       ++ int_str (((Z.abs (Qnum q) * 10) / Z.pos (Qden q)) mod 10) |}.

(** A stack with fixed answers. *)
Definition stack (found : exn + list Bleak.device) (joined : exn + bool)
    (notify disconnecting : option exn) : Stack :=
  {| discover := fun _ => found;
     client_connect := fun _ _ => joined;
     client_services := fun _ =>
       [Bleak.mk_service SDN_SERVICE_UUID
          [Bleak.mk_characteristic SDN_CMD_WRITE_UUID ["write"];
           Bleak.mk_characteristic SDN_RESPONSE_UUID ["notify"];
           Bleak.mk_characteristic SDN_RADIO_REQ_UUID ["notify"]]];
     start_notify := fun _ _ => notify;
     client_disconnect := disconnecting |}.

(** JSON text of an object with string fields, for test payloads. *)
Definition json_object (fields : list (string * string)) : string :=
  "{" ++ String.concat ","
           (map (fun kv => quote ++ fst kv ++ quote ++ ":" ++ quote ++ snd kv ++ quote) fields)
  ++ "}".

Definition payload (text : string) : list byte := list_byte_of_string text.

End Reference.

(* ------------------------------------------------------------------ *)
(** ** Scenarios *)

Module Scenario.
Import Reference.

(** A controller with a live link, a queue and a schedule. *)
Definition online (queue : list pyval) (sched : list (list occurrence)) : state :=
  mk_state (Some true) true queue true [] sched.

Definition bt_ready : pyval := confirmation "BT_READY" "ADB enable_bt OK".

Definition enable_bt_text : string :=
  json_object [("action", "enable_bt"); ("reason", "app request")].
Definition enable_bt_entries : list (string * pyval) :=
  [("action", PyStr "enable_bt"); ("reason", PyStr "app request")].
Definition enable_bt_request : list byte := payload enable_bt_text.
Definition disable_wifi_request : list byte :=
  payload (json_object [("action", "disable_wifi")]).
Definition empty_object : list byte := payload "{}".
Definition not_utf8 : list byte := [Byte.xff; Byte.xfe].
Definition not_json : list byte := payload "enable_bt".
Definition not_object : list byte := payload "[1, 2]".



(** One confirmation queued; the first suspension is quiet and the link
    drops during the second. *)
Definition link_drops : state := online [bt_ready] [[]; [LinkLost]].

(** A request whose action is a number. *)
Definition numeric_action_text : string := "{" ++ quote ++ "action" ++ quote ++ ": 5}".
Definition numeric_action_request : list byte := payload numeric_action_text.

(** A command for [--send]. *)
Definition prepare_bt_text : string := json_object [("action", "PREPARE_BT")].
Definition prepare_bt : pyval := PyDict [("action", PyStr "PREPARE_BT")].

Definition phone_mac : string := "AA:BB:CC:DD:EE:FF".

(** A phone that advertises the service, with its UUID in upper case, and
    a device that only has a telling name. *)
Definition phone : Bleak.device :=
  Bleak.mk_device (Some "Redmi") phone_mac (-60)
    (Some ["0000180f-0000-1000-8000-00805f9b34fb"; "A1B2C3D4-E5F6-7890-ABCD-EF1234567890"]).
Definition lookalike : Bleak.device :=
  Bleak.mk_device (Some "Xiaomi SDN band") "11:22:33:44:55:66" (-70) None.

(** Stacks: the phone is near and accepts; nobody advertises and the
    connection is refused; the phone accepts but its characteristics cannot
    be subscribed. *)
Definition nearby : Stack := stack (inr [lookalike; phone]) (inr true) None None.
Definition nobody : Stack :=
  stack (inr [lookalike]) (inl (mk_exn BleakError "Device not found")) None None.
Definition deaf : Stack :=
  stack (inr [phone]) (inr true) (Some (mk_exn BleakError "Characteristic not found")) None.

Definition scan_args : Cli.args := Cli.mk_args true None None (inject_Z 10).
Definition auto_args : Cli.args := Cli.mk_args false None None (inject_Z 10).
Definition bridge_args : Cli.args := Cli.mk_args false (Some phone_mac) None (inject_Z 10).
Definition send_args (text : string) : Cli.args :=
  Cli.mk_args false (Some phone_mac) (Some text) (inject_Z 10).

(** A process in which SIGINT arrives during the fourth suspension. *)
Definition interrupted : state :=
  set_schedule [[]; []; []; [Signal]] SdnBleController.init.

(** A live loop with an empty queue; an enable_bt request arrives during
    its first sleep. *)
Definition request_during_sleep : state :=
  online [] [[RadioRequestNotify enable_bt_request]].

(** An enable_bt request handled while the executor fails. *)
Definition failed_enable_bt : result pyval * state :=
  handle_radio_request (R := runtime) (W := adb_fails)
    (PyStr "enable_bt") (PyStr "app request") SdnBleController.init.

End Scenario.

(* ------------------------------------------------------------------ *)
(** ** Specification-side definitions *)

(** The four known actions, with the rows of the dispatch table. *)
Inductive known_action : Type := enable_bt | disable_bt | enable_wifi | disable_wifi.

Definition action_name (a : known_action) : string :=
  match a with
  | enable_bt => "enable_bt"
  | disable_bt => "disable_bt"
  | enable_wifi => "enable_wifi"
  | disable_wifi => "disable_wifi"
  end.

Definition adb_command (a : known_action) : string :=
  match a with
  | enable_bt => "svc bluetooth enable"
  | disable_bt => "svc bluetooth disable"
  | enable_wifi => "svc wifi enable"
  | disable_wifi => "svc wifi disable"
  end.

Definition spec_post_wait (a : known_action) : list event :=
  match a with
  | enable_bt => [Sleep (inject_Z 2)]
  | enable_wifi => [Sleep (inject_Z 3)]
  | disable_bt | disable_wifi => []
  end.

(** The success and failure columns of the table: the outcome tag and the
    reason. *)
Definition spec_table (a : known_action) (ok : bool) : string * string :=
  match a, ok with
  | enable_bt, true => ("BT_READY", "ADB enable_bt OK")
  | enable_bt, false => ("BT_READY", "ADB enable_bt FAILED")
  | disable_bt, true => ("BT_DISABLED", "ADB disable_bt OK")
  | disable_bt, false => ("BT_DISABLED", "ADB disable_bt FAILED")
  | enable_wifi, true => ("WIFI_READY", "ADB enable_wifi OK")
  | enable_wifi, false => ("WIFI_READY", "ADB enable_wifi FAILED")
  | disable_wifi, true => ("WIFI_DISABLED", "ADB disable_wifi OK")
  | disable_wifi, false => ("WIFI_DISABLED", "ADB disable_wifi FAILED")
  end.

(** The Confirmation of a row: its tag, the constant session id, its reason. *)
Definition spec_confirmation (a : known_action) (ok : bool) : pyval :=
  PyDict [("action", PyStr (fst (spec_table a ok)));
          ("sessionId", PyStr "ble-bridge");
          ("reason", PyStr (snd (spec_table a ok)))].

(** What the next [subprocess.run] of [adb shell command] answers. *)
Definition next_run {W : World} (st : state) (command : string) : exn + completed :=
  subprocess_result (exec_count (trace st)) (py_split (ADB_CMD ++ " shell " ++ command)) 10.

Definition run_ok (r : exn + completed) : bool :=
  match r with
  | inr c => (returncode c =? 0)%Z
  | inl _ => false
  end.

(** The pair [adb_exec] returns and the events it adds for an answer. *)
Definition adb_value (r : exn + completed) : bool * string :=
  match r with
  | inr c => ((returncode c =? 0)%Z, py_strip (stdout c))
  | inl e => (false, if is_timeout e then "timeout" else exn_str e)
  end.

Definition adb_events (command : string) (r : exn + completed) : list event :=
  [Log INFO ("ADB exec: " ++ ADB_CMD ++ " shell " ++ command);
   Subprocess (py_split (ADB_CMD ++ " shell " ++ command)) 10]
  ++ match r with
     | inr c =>
       if nonempty (py_strip (stdout c))
       then [Log INFO ("ADB output: " ++ py_strip (stdout c))] else []
     | inl e =>
       if is_timeout e then [Log ERROR "ADB timeout"]
       else [Log ERROR ("ADB error: " ++ exn_str e)]
     end.

(** The branch of [handle_radio_request] an action selects. *)
Definition known_of (action : pyval) : option known_action :=
  if py_eq_str action "enable_bt" then Some enable_bt
  else if py_eq_str action "disable_bt" then Some disable_bt
  else if py_eq_str action "enable_wifi" then Some enable_wifi
  else if py_eq_str action "disable_wifi" then Some disable_wifi
  else None.

Definition known_names : list string :=
  map action_name [enable_bt; disable_bt; enable_wifi; disable_wifi].

Definition unknown_confirmation {R : PyRuntime} (action : pyval) : pyval :=
  confirmation "UNKNOWN" ("Unknown action: " ++ py_str action).

Definition request_line {R : PyRuntime} (action reason : pyval) : event :=
  Log INFO ("Radio request: action=" ++ py_str action ++ ", reason=" ++ py_str reason).

(** The field values the dispatcher reads from a decoded object. *)
Definition field (key : string) (default : pyval) (entries : list (string * pyval)) : pyval :=
  match dict_lookup key entries with
  | Some v => v
  | None => default
  end.

Definition request_action (entries : list (string * pyval)) : pyval :=
  field "action" (PyStr "unknown") entries.

Definition request_reason (entries : list (string * pyval)) : pyval :=
  field "reason" (PyStr EmptyString) entries.

Definition received_line (json_str : string) : event :=
  Log INFO ("📱 Radio Request: " ++ json_str).

Definition dropped_line (text : string) : event :=
  Log ERROR ("Error procesando radio request: " ++ text).

Definition no_get (v : pyval) : string :=
  "'" ++ type_name v ++ "' object has no attribute 'get'".

(** The bytes [send_command] writes for a command. *)
Definition wire {R : PyRuntime} (command : pyval) : list byte :=
  list_byte_of_string (json_dumps command).

(** The line [send_command] logs after the write. *)
Definition send_report {R : PyRuntime} (command : pyval) (failure : option exn) : event :=
  match failure with
  | Some e => Log ERROR ("Error enviando comando: " ++ exn_str e)
  | None =>
    match command with
    | PyDict entries =>
      Log INFO ("→ Comando enviado: " ++ py_str (field "action" (PyStr "unknown") entries))
    | _ => Log ERROR ("Error enviando comando: " ++ no_get command)
    end
  end.

(** What the occurrences of a suspension can change: only a radio-request
    adds to the queue, and then one item at its end; only a lost link
    touches the client; the trace grows by events that write nothing to the
    peer, and the schedule is left alone. *)
Definition frame (radio : nat) (link_kept : bool) (st st' : state) : Prop :=
  schedule st' = schedule st
  /\ (exists evs, trace st' = (trace st ++ evs)%list /\ transmissions evs = [])
  /\ (link_kept = true -> client st' = client st)
  /\ exists new, pending_commands st' = (pending_commands st ++ new)%list
                 /\ length new <= radio.

Definition radio_requests (os : list occurrence) : nat :=
  length (filter SdnBleController.is_radio_request os).

Definition link_kept (os : list occurrence) : bool :=
  negb (existsb SdnBleController.is_link_lost os).


(** A payload the dispatcher cannot turn into a request: its bytes are not
    UTF-8, its text is not JSON, or the JSON value is not an object. *)
Definition malformed {R : PyRuntime} (data : list byte) : bool :=
  match bytes_decode data with
  | inl _ => true
  | inr s =>
    match json_loads s with
    | inl _ => true
    | inr v => negb (is_dict v)
    end
  end.


(** [st'] is [st] with [evs] added to its trace. *)
Definition extends (st : state) (evs : list event) : state :=
  set_trace (trace st ++ evs)%list st.

(* ------------------------------------------------------------------ *)
(** ** Definitions for the further properties *)

Definition is_log (ev : event) : bool :=
  match ev with Log _ _ => true | _ => false end.

(** The events of a trace other than its log lines. *)
Definition effects (t : list event) : list event :=
  filter (fun ev => negb (is_log ev)) t.

Definition is_str (v : pyval) : bool :=
  match v with PyStr _ => true | _ => false end.

(** The argument vector of the subprocess of each known action. *)
Definition known_argv (a : known_action) : list string :=
  match a with
  | enable_bt => ["adb"; "shell"; "svc"; "bluetooth"; "enable"]
  | disable_bt => ["adb"; "shell"; "svc"; "bluetooth"; "disable"]
  | enable_wifi => ["adb"; "shell"; "svc"; "wifi"; "enable"]
  | disable_wifi => ["adb"; "shell"; "svc"; "wifi"; "disable"]
  end.

(** The radio-request callback run on a sequence of payloads, one after
    the other. *)
Definition dispatch_all {R : PyRuntime} {W : World}
    (payloads : list (list byte)) (st : state) : state :=
  fold_left
    (fun s data => snd (SdnBleController._on_radio_request_notify SDN_RADIO_REQ_UUID data s))
    payloads st.

Definition is_signal (o : occurrence) : bool :=
  match o with Signal => true | _ => false end.

(** A suspension halts the loop when a signal arrives or the link is lost
    during it. *)
Definition halts (os : list occurrence) : bool :=
  existsb (fun o => is_signal o || SdnBleController.is_link_lost o) os.

(** The condition of the main loop: [running and self.client and
    self.client.is_connected]. *)
Definition alive (st : state) : bool := running st && link_up st.

(** From [st] to [st'] the next [m] suspensions of the schedule have
    happened: the loop condition holds afterwards exactly when it held
    before and none of them halts, and what was written to the peer has
    only grown. *)
Definition consumed (m : nat) (st st' : state) : Prop :=
  schedule st' = skipn m (schedule st)
  /\ alive st' = alive st && negb (existsb halts (firstn m (schedule st)))
  /\ exists more,
       transmissions (trace st') = (transmissions (trace st) ++ more)%list.

(** The two lines [run_loop] logs before its loop. *)
Definition banner : list event :=
  [Log INFO "═══ BLE Bridge activo — esperando radio-requests del teléfono ═══";
   Log INFO "  Ctrl+C para salir"].

(** A device advertises the SDN service: one of its advertised UUIDs is,
    in lower case, the service UUID. *)
Definition advertises_sdn {T : PyText} (d : Bleak.device) : bool :=
  existsb (fun u => String.eqb (py_lower u) SDN_SERVICE_UUID)
          (match Bleak.uuids d with Some l => l | None => [] end).

(** The name of a device, in lower case, contains sdn or xiaomi. *)
Definition name_hints_sdn {T : PyText} (d : Bleak.device) : bool :=
  py_in "sdn" (py_lower (name_or_empty (Bleak.name d)))
  || py_in "xiaomi" (py_lower (name_or_empty (Bleak.name d))).

(** The log lines of the scan for the discovered devices. *)
Definition scan_lines {T : PyText} (discovered : list Bleak.device) : list event :=
  flat_map
    (fun d =>
       if advertises_sdn d
       then [Log INFO ("  ✓ SDN Device: " ++ SdnBleController.device_text d)]
       else if name_hints_sdn d
            then [Log INFO ("  ? Posible: " ++ SdnBleController.device_text d)]
            else [])
    discovered.

(** From [st] to [st'] the flag [self.connected] is unchanged and nothing
    was written to the peer. *)
Definition quiet (st st' : state) : Prop :=
  connected st' = connected st
  /\ transmissions (trace st') = transmissions (trace st).

Definition scan_start {T : PyText} (timeout : Q) : event :=
  Log INFO ("Escaneando dispositivos SDN (timeout=" ++ float_str timeout ++ "s)...").

Definition none_found : event := Log WARNING "No se encontraron dispositivos SDN".

Definition set_connected (b : bool) (st : state) : state :=
  mk_state (client st) b (pending_commands st) (running st) (trace st) (schedule st).

Definition characteristic_lines (chars : list Bleak.characteristic) : list event :=
  map (fun c => Log INFO ("    Char: " ++ Bleak.char_uuid c ++ " ["
                          ++ String.concat "," (Bleak.properties c) ++ "]"))
      chars.

Definition service_lines (services : list Bleak.service) : list event :=
  flat_map (fun service =>
              Log INFO ("  Service: " ++ Bleak.service_uuid service)
              :: characteristic_lines (Bleak.characteristics service))
           services.

(** The line [connect] logs for a subscription, by what [start_notify] did. *)
Definition subscription_line (what : string) (failure : option exn) : event :=
  match failure with
  | Some e => Log WARNING ("No se pudo suscribir a " ++ what ++ ": " ++ exn_str e)
  | None => Log INFO ("✓ Suscrito a " ++ what ++ " notifications")
  end.

Definition connection_error (address : string) : exn :=
  mk_exn (OtherException "ConnectionError") ("No se pudo conectar a " ++ address).

(** The state in which [client.connect()] has been awaited, and the state
    [connect] ends in when the link is up after it. *)
Definition joining {R : PyRuntime} {W : World} (address : string) (st : state) : state :=
  snd (SdnBleController.suspend
         (set_client (Some false) (extends st [Log INFO ("Conectando a " ++ address ++ "...")]))).

Definition joined {S : Stack} {R : PyRuntime} {W : World} (address : string) (st : state)
  : state :=
  let greeted :=
    extends (set_connected true (set_client (Some true) (joining address st)))
            (Log INFO ("✓ Conectado a " ++ address)
             :: service_lines (client_services address)) in
  let first :=
    extends (snd (SdnBleController.suspend greeted))
            [subscription_line "RESPONSE" (start_notify address SDN_RESPONSE_UUID)] in
  extends (snd (SdnBleController.suspend first))
          [subscription_line "RADIO_REQUEST" (start_notify address SDN_RADIO_REQ_UUID)].

(* ================================================================== *)
(** * Properties *)

Arguments exec_count : simpl never.
Arguments py_split : simpl never.
Arguments py_strip : simpl never.

Ltac munfold :=
  unfold log_info, log_error, log_warning, time_sleep, when, of_sum in *;
  unfold bind, ret, raise, try_except, emit, subprocess_run in *.

Lemma exec_count_app (t u : list event) :
  exec_count (t ++ u) = exec_count t + exec_count u.
Proof. unfold exec_count. now rewrite filter_app, length_app. Qed.

Lemma transmissions_app (t u : list event) :
  (transmissions (t ++ u) = transmissions t ++ transmissions u)%list.
Proof.
  induction t as [|ev t IH]; [reflexivity|].
  destruct ev; cbn; rewrite IH; reflexivity.
Qed.

Lemma extends_extends (st : state) (e1 e2 : list event) :
  extends (extends st e1) e2 = extends st (e1 ++ e2)%list.
Proof. unfold extends, set_trace; cbn. now rewrite app_assoc. Qed.

Lemma record_extends (ev : event) (st : state) : record ev st = extends st [ev].
Proof. reflexivity. Qed.

Section Executor.
Context {W : World}.

Lemma adb_exec_spec (command : string) (st : state) :
  adb_exec command st
  = (Return (adb_value (next_run st command)),
     extends st (adb_events command (next_run st command))).
Proof.
  unfold adb_exec, next_run, adb_events, adb_value. munfold.
  cbn -[String.append].
  rewrite exec_count_app, Nat.add_0_r.
  destruct (subprocess_result _ _ _) as [e|c]; cbn -[String.append].
  - destruct (is_timeout e); cbn -[String.append];
      unfold extends, record, set_trace; cbn -[String.append];
      rewrite <- !app_assoc; reflexivity.
  - destruct (nonempty (py_strip (stdout c)));
      cbn -[String.append];
      unfold extends, record, set_trace; cbn -[String.append];
      rewrite <- ?app_assoc; reflexivity.
Qed.

Lemma next_run_extends (st : state) (evs : list event) (command : string) :
  exec_count evs = 0 -> next_run (extends st evs) command = next_run st command.
Proof.
  intros Hevs. unfold next_run, extends, set_trace. cbn -[String.append].
  now rewrite exec_count_app, Hevs, Nat.add_0_r.
Qed.

End Executor.

Section Handler.
Context {R : PyRuntime} {W : World}.

Lemma known_of_name (a : known_action) : known_of (PyStr (action_name a)) = Some a.
Proof. destruct a; reflexivity. Qed.

Lemma known_of_outside (action : string) :
  ~ In action known_names -> known_of (PyStr action) = None.
Proof.
  intros Hout. unfold known_of, py_eq_str.
  repeat match goal with
  | |- context [String.eqb action ?n] =>
    destruct (String.eqb_spec action n) as [->|_];
      [exfalso; apply Hout; cbn; tauto|]
  end.
  reflexivity.
Qed.

(** A known action: the request line, the executor run, the post-wait of
    the row when the run succeeded, and the row's confirmation. *)
Lemma handle_known (a : known_action) (action reason : pyval) (st : state) :
  known_of action = Some a ->
  let r := next_run st (adb_command a) in
  handle_radio_request action reason st
  = (Return (spec_confirmation a (run_ok r)),
     extends st (request_line action reason :: adb_events (adb_command a) r
                 ++ (if run_ok r then spec_post_wait a else []))%list).
Proof.
  intros Hk. cbv zeta. unfold known_of in Hk. unfold handle_radio_request.
  destruct (py_eq_str action "enable_bt");
    [|destruct (py_eq_str action "disable_bt");
      [|destruct (py_eq_str action "enable_wifi");
        [|destruct (py_eq_str action "disable_wifi"); [|discriminate]]]];
    injection Hk as <-; cbn [adb_command];
    unfold bind at 1; unfold log_info at 1; unfold emit at 1;
    fold (request_line action reason);
    unfold bind at 1; rewrite adb_exec_spec;
    rewrite record_extends, next_run_extends by reflexivity; rewrite extends_extends;
    unfold adb_value, run_ok;
    destruct (next_run st _) as [e|c]; cbn [fst];
    try destruct (returncode c =? 0)%Z;
    munfold; cbn [spec_post_wait]; rewrite ?record_extends, ?extends_extends;
    rewrite <- ?app_assoc, ?app_nil_r; reflexivity.
Qed.

(** Anything else: the request line, a warning, the UNKNOWN confirmation. *)
Lemma handle_unknown (action reason : pyval) (st : state) :
  known_of action = None ->
  handle_radio_request action reason st
  = (Return (unknown_confirmation action),
     extends st [request_line action reason;
                 Log WARNING ("Radio request desconocido: " ++ py_str action)]).
Proof.
  intros Hk. unfold known_of in Hk. unfold handle_radio_request.
  destruct (py_eq_str action "enable_bt"); [discriminate|].
  destruct (py_eq_str action "disable_bt"); [discriminate|].
  destruct (py_eq_str action "enable_wifi"); [discriminate|].
  destruct (py_eq_str action "disable_wifi"); [discriminate|].
  munfold. rewrite !record_extends, extends_extends. reflexivity.
Qed.

End Handler.

Section Dispatcher.
Context {R : PyRuntime} {W : World}.
Import SdnBleController.

Lemma transmissions_adb_events (command : string) (r : exn + completed) :
  transmissions (adb_events command r) = [].
Proof.
  unfold adb_events. destruct r as [e|c]; cbn.
  - now destruct (is_timeout e).
  - now destruct (nonempty (py_strip (stdout c))).
Qed.

Lemma exec_count_adb_events (command : string) (r : exn + completed) :
  exec_count (adb_events command r) = 1.
Proof.
  unfold adb_events. rewrite exec_count_app. destruct r as [e|c].
  - now destruct (is_timeout e).
  - now destruct (nonempty (py_strip (stdout c))).
Qed.

(** The handler always returns a value, and only adds log lines, executor
    runs and sleeps to the trace. *)
Lemma handle_total (action reason : pyval) (st : state) :
  exists conf evs,
    handle_radio_request action reason st = (Return conf, extends st evs)
    /\ transmissions evs = []
    /\ (known_of action = None ->
        conf = unknown_confirmation action /\ exec_count evs = 0).
Proof.
  destruct (known_of action) as [a|] eqn:Hk.
  - eexists _, _. split; [apply (handle_known a); exact Hk|]. split; [|discriminate].
    unfold request_line. cbn [transmissions].
    rewrite transmissions_app, transmissions_adb_events.
    destruct (run_ok _); [destruct a|]; reflexivity.
  - eexists _, _. split; [apply handle_unknown; exact Hk|]. split; [reflexivity|].
    intros _. split; reflexivity.
Qed.

Lemma radio_request_undecodable (sender : string) (data : list byte) (e : exn) (st : state) :
  bytes_decode data = inl e ->
  _on_radio_request_notify sender data st
  = (Return tt, extends st [dropped_line (exn_str e)]).
Proof.
  intros Hd. unfold _on_radio_request_notify. rewrite Hd. munfold. reflexivity.
Qed.

Lemma radio_request_unparseable (sender : string) (data : list byte) (s : string)
    (e : exn) (st : state) :
  bytes_decode data = inr s ->
  json_loads s = inl e ->
  _on_radio_request_notify sender data st
  = (Return tt, extends st [received_line s; dropped_line (exn_str e)]).
Proof.
  intros Hd Hp. unfold _on_radio_request_notify. rewrite Hd. munfold.
  rewrite Hp. rewrite !record_extends, extends_extends. reflexivity.
Qed.

Lemma radio_request_not_object (sender : string) (data : list byte) (s : string)
    (v : pyval) (st : state) :
  bytes_decode data = inr s ->
  json_loads s = inr v ->
  is_dict v = false ->
  _on_radio_request_notify sender data st
  = (Return tt, extends st [received_line s; dropped_line (no_get v)]).
Proof.
  intros Hd Hp Hv. unfold _on_radio_request_notify. rewrite Hd. munfold.
  rewrite Hp. destruct v; try discriminate;
    cbn -[String.append]; rewrite !record_extends, extends_extends; reflexivity.
Qed.

Lemma radio_request_object (sender : string) (data : list byte) (s : string)
    (entries : list (string * pyval)) (st : state) :
  bytes_decode data = inr s ->
  json_loads s = inr (PyDict entries) ->
  exists conf evs,
    handle_radio_request (request_action entries) (request_reason entries)
      (extends st [received_line s]) = (Return conf, extends st (received_line s :: evs))
    /\ transmissions evs = []
    /\ _on_radio_request_notify sender data st
       = (Return tt,
          set_pending (pending_commands st ++ [conf])%list
            (extends st (received_line s :: evs))).
Proof.
  intros Hd Hp.
  destruct (handle_total (request_action entries) (request_reason entries)
              (extends st [received_line s])) as (conf & evs & Hh & Ht & _).
  rewrite extends_extends in Hh. exists conf, evs. split; [exact Hh|]. split; [exact Ht|].
  unfold _on_radio_request_notify. rewrite Hd. munfold. rewrite Hp.
  cbn -[String.append handle_radio_request].
  fold (received_line s). rewrite record_extends.
  fold (request_action entries). fold (request_reason entries).
  unfold request_action, request_reason, field in *.
  rewrite Hh. reflexivity.
Qed.

(** No exception leaves the radio-request callback. *)
Lemma radio_request_callback_returns (sender : string) (data : list byte) (st : state) :
  exists st', _on_radio_request_notify sender data st = (Return tt, st').
Proof.
  destruct (bytes_decode data) as [e|s] eqn:Hd.
  { eexists. apply radio_request_undecodable. exact Hd. }
  destruct (json_loads s) as [e|v] eqn:Hp.
  { eexists. apply (radio_request_unparseable _ _ s); [exact Hd|exact Hp]. }
  destruct (is_dict v) eqn:Hv.
  - destruct v; try discriminate.
    destruct (radio_request_object sender _ _ _ st Hd Hp) as (conf & evs & _ & _ & Hcb).
    eexists. exact Hcb.
  - eexists. apply (radio_request_not_object _ _ s v); assumption.
Qed.

Lemma frame_extends (n : nat) (k : bool) (st : state) (evs : list event) :
  transmissions evs = [] -> frame n k st (extends st evs).
Proof.
  intros Ht. repeat split.
  - exists evs. split; [reflexivity|exact Ht].
  - exists []. cbn. rewrite app_nil_r. split; [reflexivity|lia].
Qed.

Lemma frame_refl (n : nat) (k : bool) (st : state) : frame n k st st.
Proof.
  repeat split.
  - exists []. now rewrite app_nil_r.
  - exists []. rewrite app_nil_r. split; [reflexivity|cbn; lia].
Qed.

Lemma frame_trans (n m : nat) (k1 k2 : bool) (s1 s2 s3 : state) :
  frame n k1 s1 s2 -> frame m k2 s2 s3 -> frame (n + m) (k1 && k2) s1 s3.
Proof.
  intros (Hs1 & (ev1 & Ht1 & Hw1) & Hc1 & new1 & Hp1 & Hl1)
         (Hs2 & (ev2 & Ht2 & Hw2) & Hc2 & new2 & Hp2 & Hl2).
  repeat split.
  - congruence.
  - exists (ev1 ++ ev2)%list. rewrite Ht2, Ht1, <- app_assoc, transmissions_app, Hw1, Hw2.
    split; reflexivity.
  - intros [-> ->]%andb_true_iff. rewrite Hc2, Hc1; reflexivity.
  - exists (new1 ++ new2)%list. rewrite Hp2, Hp1, <- app_assoc, length_app.
    split; [reflexivity|lia].
Qed.

Lemma occur_frame (o : occurrence) (st : state) :
  frame (if is_radio_request o then 1 else 0) (negb (is_link_lost o)) st (occur o st).
Proof.
  destruct o as [data|data| |]; cbn [occur is_radio_request is_link_lost negb].
  - unfold _on_response_notify. destruct (bytes_decode data) as [e|s]; munfold; cbn [snd];
      rewrite record_extends; now apply frame_extends.
  - destruct (bytes_decode data) as [e|s] eqn:Hd.
    { rewrite (radio_request_undecodable _ _ _ _ Hd). cbn [snd].
      now apply frame_extends. }
    destruct (json_loads s) as [e|v] eqn:Hp.
    { rewrite (radio_request_unparseable _ _ _ _ _ Hd Hp). cbn [snd].
      now apply frame_extends. }
    destruct (is_dict v) eqn:Hv.
    + destruct v; try discriminate.
      destruct (radio_request_object SDN_RADIO_REQ_UUID _ _ _ st Hd Hp)
        as (conf & evs & _ & Ht & ->).
      cbn [snd]. repeat split.
      * exists (received_line s :: evs). split; [reflexivity|exact Ht].
      * exists [conf]. split; [reflexivity|cbn; lia].
    + rewrite (radio_request_not_object _ _ _ _ _ Hd Hp Hv). cbn [snd].
      now apply frame_extends.
  - destruct (client st) eqn:Hc; [|apply frame_refl].
    repeat split; try discriminate.
    + exists []. cbn. now rewrite app_nil_r.
    + exists []. cbn. rewrite app_nil_r. split; [reflexivity|lia].
  - unfold signal_handler. munfold. cbn [snd]. repeat split.
    + eexists. split; [reflexivity|reflexivity].
    + exists []. cbn. rewrite app_nil_r. split; [reflexivity|lia].
Qed.

Lemma occur_all_frame (os : list occurrence) (st : state) :
  frame (radio_requests os) (link_kept os) st (occur_all os st).
Proof.
  revert st. induction os as [|o os IH]; intros st.
  - apply frame_refl.
  - cbn [occur_all fold_left]. fold (occur_all os (occur o st)).
    pose proof (frame_trans _ _ _ _ _ _ _ (occur_frame o st) (IH (occur o st))) as Hf.
    replace (radio_requests (o :: os))
      with ((if is_radio_request o then 1 else 0) + radio_requests os)
      by (unfold radio_requests; cbn; destruct (is_radio_request o); reflexivity).
    replace (link_kept (o :: os)) with (negb (is_link_lost o) && link_kept os)
      by (unfold link_kept; cbn; now rewrite negb_orb).
    exact Hf.
Qed.

End Dispatcher.

Section Session.
Context {R : PyRuntime} {W : World}.
Import SdnBleController.

Lemma suspend_frame (st : state) :
  exists st',
    suspend st = (Return tt, st')
    /\ frame (radio_requests (hd [] (schedule st))) (link_kept (hd [] (schedule st)))
             (set_schedule (tl (schedule st)) st) st'.
Proof.
  unfold suspend. destruct (schedule st) as [|os later] eqn:Hs.
  - exists st. split; [reflexivity|]. cbn [hd tl].
    repeat split.
    + cbn. now rewrite Hs.
    + exists []. cbn. now rewrite app_nil_r.
    + exists []. cbn. rewrite app_nil_r. split; [reflexivity|lia].
  - eexists. split; [reflexivity|]. cbn [hd tl]. apply occur_all_frame.
Qed.

Lemma send_command_down (command : pyval) (st : state) :
  link_up st = false ->
  send_command command st
  = (Return tt, extends st [Log ERROR "No conectado — no se puede enviar comando"]).
Proof. intros Hl. unfold send_command. rewrite Hl. reflexivity. Qed.

Lemma send_command_up (command : pyval) (st : state) :
  link_up st = true ->
  exists mid,
    frame (radio_requests (hd [] (schedule st))) (link_kept (hd [] (schedule st)))
          (set_schedule (tl (schedule st))
             (record (GattWrite SDN_CMD_WRITE_UUID (wire command) true) st)) mid
    /\ send_command command st
       = (Return tt,
          record (send_report command
                    (write_result (length (transmissions (trace st))) (wire command)))
                 mid).
Proof.
  intros Hl. unfold send_command. rewrite Hl. cbn [negb].
  destruct (suspend_frame (record (GattWrite SDN_CMD_WRITE_UUID (wire command) true) st))
    as (mid & Hs & Hf).
  exists mid. split; [exact Hf|].
  unfold write_gatt_char. fold (wire command). munfold. rewrite Hs.
  destruct (write_result _ _) as [e|]; [reflexivity|].
  destruct command; reflexivity.
Qed.

Lemma transmissions_send_report (command : pyval) (failure : option exn) :
  transmissions [send_report command failure] = [].
Proof. destruct failure; [reflexivity|]. destruct command; reflexivity. Qed.

(** [send_command] in one statement, whatever the link and the write do. *)
Lemma send_command_frame (command : pyval) (st : state) :
  exists st',
    send_command command st = (Return tt, st')
    /\ schedule st' = (if link_up st then tl (schedule st) else schedule st)
    /\ transmissions (trace st')
       = (transmissions (trace st) ++ (if link_up st then [wire command] else []))%list
    /\ (link_kept (hd [] (schedule st)) = true -> client st' = client st)
    /\ exists new,
         pending_commands st' = (pending_commands st ++ new)%list
         /\ length new <= (if link_up st then radio_requests (hd [] (schedule st)) else 0).
Proof.
  destruct (link_up st) eqn:Hl.
  - destruct (send_command_up command st Hl)
      as (mid & (Hs & (evs & Ht & Hw) & Hc & new & Hp & Hn) & ->).
    eexists. split; [reflexivity|]. cbn in Hs, Ht, Hc, Hp. repeat split.
    + exact Hs.
    + cbn. rewrite Ht, !transmissions_app, Hw, transmissions_send_report.
      cbn. now rewrite !app_nil_r.
    + exact Hc.
    + exists new. split; [exact Hp|exact Hn].
  - rewrite (send_command_down command st Hl). eexists. split; [reflexivity|].
    repeat split.
    + cbn. now rewrite transmissions_app.
    + exists []. cbn. rewrite app_nil_r. split; [reflexivity|lia].
Qed.

Lemma arrivals_cons (os : list occurrence) (later : list (list occurrence)) :
  arrivals (os :: later) = radio_requests os + arrivals later.
Proof. unfold arrivals, radio_requests. cbn. now rewrite filter_app, length_app. Qed.

Lemma arrivals_tl (sched : list (list occurrence)) :
  radio_requests (hd [] sched) + arrivals (tl sched) = arrivals sched.
Proof. destruct sched as [|os later]; [reflexivity|]. now rewrite arrivals_cons. Qed.

(** The inner loop empties the queue within its budget. *)
Lemma send_pending_empties (fuel : nat) :
  forall st, pending_budget st <= fuel ->
  exists st', send_pending fuel st = (Return tt, st') /\ pending_commands st' = [].
Proof.
  induction fuel as [|fuel IH]; intros st Hb.
  - unfold pending_budget in Hb.
    destruct (pending_commands st) as [|cmd rest] eqn:Hq; [|cbn in Hb; lia].
    exists st. cbn. now rewrite Hq.
  - cbn [send_pending]. destruct (pending_commands st) as [|cmd rest] eqn:Hq.
    + exists st. split; [reflexivity|exact Hq].
    + destruct (send_command_frame cmd (set_pending rest st))
        as (st1 & Hsend & Hs & _ & _ & new & Hp & Hn).
      unfold bind. rewrite Hsend. apply IH.
      unfold pending_budget in *. rewrite Hq in Hb. cbn in Hb, Hs, Hp, Hn.
      rewrite Hp, Hs, length_app.
      pose proof (arrivals_tl (schedule st)) as Ha.
      destruct (link_up (set_pending rest st)); lia.
Qed.


End Session.

(* ================================================================== *)
(** * The claims *)

Section Claims.
Context {R : PyRuntime} {W : World}.
Import SdnBleController.

(** C1. For each of the four known actions and for either outcome of the
    executor, [handle_radio_request] returns the Confirmation of the table:
    BT_READY or WIFI_READY for the enable actions whether the executor
    succeeded or not, BT_DISABLED or WIFI_DISABLED for the disable actions,
    a reason ending in OK on success and in FAILED on failure, and the
    session id "ble-bridge". *)
Theorem handle_radio_request_table (a : known_action) (reason : pyval) (st : state) :
  exists st',
    handle_radio_request (PyStr (action_name a)) reason st
    = (Return (spec_confirmation a (run_ok (next_run st (adb_command a)))), st').
Proof.
  eexists. apply (handle_known a). apply known_of_name.
Qed.

(** C3. For an action string outside the four known ones,
    [handle_radio_request] returns the UNKNOWN confirmation whose reason is
    "Unknown action: " followed by the action, and the executor is not
    invoked: the call adds two log lines to the trace and nothing else. *)
Theorem handle_radio_request_unknown (action : string) (reason : pyval) (st : state) :
  ~ In action known_names ->
  exists st',
    handle_radio_request (PyStr action) reason st
    = (Return (confirmation "UNKNOWN" ("Unknown action: " ++ action)), st')
    /\ st' = extends st [request_line (PyStr action) reason;
                         Log WARNING ("Radio request desconocido: " ++ action)]
    /\ exec_count (trace st') = exec_count (trace st).
Proof.
  intros Hout. eexists. split; [|split; [reflexivity|]].
  - apply (handle_unknown (PyStr action)). now apply known_of_outside.
  - cbn. now rewrite exec_count_app, Nat.add_0_r.
Qed.


(** C6, as the code has it.  For each known action, the handler logs the
    request, runs the executor once, and then waits as the post-wait column
    says (2 units for enable_bt, 3 for enable_wifi, nothing for the disable
    actions) only when the executor succeeded; when it failed the handler
    returns without waiting.  Nothing before the wait sleeps. *)
Theorem handle_radio_request_post_wait (a : known_action) (reason : pyval) (st : state) :
  let r := next_run st (adb_command a) in
  let before := request_line (PyStr (action_name a)) reason
                :: adb_events (adb_command a) r in
  exists conf st',
    handle_radio_request (PyStr (action_name a)) reason st = (Return conf, st')
    /\ trace st' = (trace st ++ before ++ (if run_ok r then spec_post_wait a else []))%list
    /\ filter is_sleep before = []
    /\ exec_count before = 1.
Proof.
  cbv zeta. eexists _, _. split; [apply (handle_known a); apply known_of_name|].
  split; [reflexivity|]. split.
  - unfold request_line, adb_events. cbn [filter is_sleep app].
    destruct (next_run st (adb_command a)) as [e|c].
    + now destruct (is_timeout e).
    + now destruct (nonempty (py_strip (stdout c))).
  - change (exec_count (?x :: ?l)) with (exec_count l).
    apply exec_count_adb_events.
Qed.

(** C2. When the payload decodes and parses to a JSON object, the callback
    returns normally and has appended exactly one Confirmation to the
    pending commands: the one [handle_radio_request] returns for the
    object's action and reason, which is the UNKNOWN confirmation when the
    action is not a known one. *)
Theorem radio_request_enqueues_one (sender : string) (data : list byte) (s : string)
    (entries : list (string * pyval)) (st : state) :
  bytes_decode data = inr s ->
  json_loads s = inr (PyDict entries) ->
  exists conf st',
    _on_radio_request_notify sender data st = (Return tt, st')
    /\ pending_commands st' = (pending_commands st ++ [conf])%list
    /\ fst (handle_radio_request (request_action entries) (request_reason entries)
              (extends st [received_line s])) = Return conf
    /\ (known_of (request_action entries) = None ->
        conf = unknown_confirmation (request_action entries)).
Proof.
  intros Hd Hp.
  destruct (radio_request_object sender data s entries st Hd Hp)
    as (conf & evs & Hh & _ & Hcb).
  exists conf. eexists. split; [exact Hcb|]. split; [reflexivity|].
  split; [now rewrite Hh|].
  intros Hk. rewrite (handle_unknown _ _ _ Hk) in Hh. now injection Hh as <-.
Qed.

(** C4. A malformed payload (bytes that are not UTF-8, text that is not
    JSON, or a JSON value that is not an object) is logged and dropped: the
    callback returns normally, the pending commands are unchanged, the
    executor is not invoked, and the last thing the callback did is log the
    error. *)
Theorem malformed_radio_request_dropped (sender : string) (data : list byte) (st : state) :
  malformed data = true ->
  exists st',
    _on_radio_request_notify sender data st = (Return tt, st')
    /\ pending_commands st' = pending_commands st
    /\ exec_count (trace st') = exec_count (trace st)
    /\ exists before text,
         st' = extends st (before ++ [dropped_line text]) /\ exec_count before = 0.
Proof.
  unfold malformed. intros Hm.
  destruct (bytes_decode data) as [e|s] eqn:Hd.
  { rewrite (radio_request_undecodable _ _ _ _ Hd). eexists. split; [reflexivity|].
    split; [reflexivity|]. split.
    - cbn. now rewrite exec_count_app, Nat.add_0_r.
    - exists [], (exn_str e). split; reflexivity. }
  destruct (json_loads s) as [e|v] eqn:Hp.
  { rewrite (radio_request_unparseable _ _ _ _ _ Hd Hp). eexists. split; [reflexivity|].
    split; [reflexivity|]. split.
    - cbn. now rewrite exec_count_app, Nat.add_0_r.
    - exists [received_line s], (exn_str e). split; reflexivity. }
  apply negb_true_iff in Hm.
  rewrite (radio_request_not_object _ _ _ _ _ Hd Hp Hm). eexists. split; [reflexivity|].
  split; [reflexivity|]. split.
  - cbn. now rewrite exec_count_app, Nat.add_0_r.
  - exists [received_line s], (no_get v). split; reflexivity.
Qed.

(** C10. A payload that decodes to a JSON object without an "action" field
    is not dropped: the action defaults to the string "unknown", so the
    callback appends exactly the confirmation
    {action: "UNKNOWN", sessionId: "ble-bridge", reason: "Unknown action: unknown"}
    and the executor is not invoked. *)
Theorem radio_request_without_action (sender : string) (data : list byte) (s : string)
    (entries : list (string * pyval)) (st : state) :
  bytes_decode data = inr s ->
  json_loads s = inr (PyDict entries) ->
  dict_lookup "action" entries = None ->
  exists st',
    _on_radio_request_notify sender data st = (Return tt, st')
    /\ pending_commands st'
       = (pending_commands st ++ [confirmation "UNKNOWN" "Unknown action: unknown"])%list
    /\ exec_count (trace st') = exec_count (trace st).
Proof.
  intros Hd Hp Ha.
  destruct (radio_request_object sender data s entries st Hd Hp)
    as (conf & evs & Hh & _ & Hcb).
  assert (Hact : request_action entries = PyStr "unknown").
  { unfold request_action, field. now rewrite Ha. }
  rewrite Hact in Hh. rewrite (handle_unknown (PyStr "unknown")) in Hh by reflexivity.
  injection Hh as <- Hst.
  eexists. split; [exact Hcb|]. split; [reflexivity|].
  change (exec_count (trace st ++ received_line s :: evs) = exec_count (trace st)).
  rewrite <- Hst. now rewrite !exec_count_app, !Nat.add_0_r.
Qed.




End Claims.

(* ================================================================== *)
(** * The claims on concrete runs *)

Section Runs.
Import SdnBleController Reference Scenario.

Lemma handle_radio_request_unknown_witness :
  ~ In "reboot" known_names
  /\ exists st',
       handle_radio_request (R := runtime) (W := adb_succeeds)
         (PyStr "reboot") (PyStr EmptyString) init
       = (Return (confirmation "UNKNOWN" ("Unknown action: " ++ "reboot")), st')
       /\ st' = extends init [request_line (R := runtime) (PyStr "reboot") (PyStr EmptyString);
                              Log WARNING ("Radio request desconocido: " ++ "reboot")]
       /\ exec_count (trace st') = exec_count (trace init).
Proof.
  assert (Hout : ~ In "reboot" known_names) by (cbn; intuition discriminate).
  split; [exact Hout|].
  exact (handle_radio_request_unknown (R := runtime) (W := adb_succeeds)
           "reboot" (PyStr EmptyString) init Hout).
Defined.

Lemma radio_request_enqueues_one_witness :
  bytes_decode enable_bt_request = inr enable_bt_text
  /\ json_loads enable_bt_text = inr (PyDict enable_bt_entries)
  /\ exists conf st',
       _on_radio_request_notify (R := runtime) (W := adb_succeeds)
         SDN_RADIO_REQ_UUID enable_bt_request init = (Return tt, st')
       /\ pending_commands st' = (pending_commands init ++ [conf])%list
       /\ fst (handle_radio_request (R := runtime) (W := adb_succeeds)
                 (request_action enable_bt_entries) (request_reason enable_bt_entries)
                 (extends init [received_line enable_bt_text])) = Return conf
       /\ (known_of (request_action enable_bt_entries) = None ->
           conf = unknown_confirmation (R := runtime) (request_action enable_bt_entries)).
Proof.
  assert (Hd : bytes_decode enable_bt_request = inr enable_bt_text)
    by (vm_compute; reflexivity).
  assert (Hp : json_loads enable_bt_text = inr (PyDict enable_bt_entries))
    by (vm_compute; reflexivity).
  split; [exact Hd|]. split; [exact Hp|].
  exact (radio_request_enqueues_one (R := runtime) (W := adb_succeeds)
           SDN_RADIO_REQ_UUID enable_bt_request _ _ init Hd Hp).
Defined.

Lemma malformed_radio_request_dropped_witness :
  malformed (R := runtime) not_utf8 = true
  /\ exists st',
       _on_radio_request_notify (R := runtime) (W := adb_succeeds)
         SDN_RADIO_REQ_UUID not_utf8 init = (Return tt, st')
       /\ pending_commands st' = pending_commands init
       /\ exec_count (trace st') = exec_count (trace init)
       /\ exists before text,
            st' = extends init (before ++ [dropped_line text]) /\ exec_count before = 0.
Proof.
  assert (Hm : malformed (R := runtime) not_utf8 = true) by (vm_compute; reflexivity).
  split; [exact Hm|].
  exact (malformed_radio_request_dropped (R := runtime) (W := adb_succeeds)
           SDN_RADIO_REQ_UUID not_utf8 init Hm).
Defined.

Lemma radio_request_without_action_witness :
  bytes_decode empty_object = inr "{}"
  /\ json_loads "{}" = inr (PyDict [])
  /\ dict_lookup "action" [] = None
  /\ exists st',
       _on_radio_request_notify (R := runtime) (W := adb_succeeds)
         SDN_RADIO_REQ_UUID empty_object init = (Return tt, st')
       /\ pending_commands st'
          = (pending_commands init
             ++ [confirmation "UNKNOWN" "Unknown action: unknown"])%list
       /\ exec_count (trace st') = exec_count (trace init).
Proof.
  assert (Hd : bytes_decode empty_object = inr "{}") by (vm_compute; reflexivity).
  assert (Hp : json_loads "{}" = inr (PyDict [])) by (vm_compute; reflexivity).
  split; [exact Hd|]. split; [exact Hp|]. split; [reflexivity|].
  exact (radio_request_without_action (R := runtime) (W := adb_succeeds)
           SDN_RADIO_REQ_UUID empty_object "{}" [] init Hd Hp eq_refl).
Defined.





(** The failed enable_bt request returns its confirmation without any
    wait: the trace holds the two log lines and the executor run. *)
Lemma enable_bt_failure_skips_wait :
  fst failed_enable_bt = Return (confirmation "BT_READY" "ADB enable_bt FAILED")
  /\ ~ In (Sleep (inject_Z 2)) (trace (snd failed_enable_bt)).
Proof.
  split; [vm_compute; reflexivity|].
  vm_compute. intuition discriminate.
Qed.


(** The scenarios of the specification. *)

Example scenario_enable_bt_succeeds :
  _on_radio_request_notify (R := runtime) (W := adb_succeeds)
    SDN_RADIO_REQ_UUID enable_bt_request init
  = (Return tt,
     set_pending [confirmation "BT_READY" "ADB enable_bt OK"]
       (extends init
          [received_line enable_bt_text;
           Log INFO "Radio request: action=enable_bt, reason=app request";
           Log INFO "ADB exec: adb shell svc bluetooth enable";
           Subprocess ["adb"; "shell"; "svc"; "bluetooth"; "enable"] 10;
           Sleep (inject_Z 2)])).
Proof. vm_compute. reflexivity. Qed.

Example scenario_disable_wifi_fails :
  pending_commands
    (snd (_on_radio_request_notify (R := runtime) (W := adb_fails)
            SDN_RADIO_REQ_UUID disable_wifi_request init))
  = [confirmation "WIFI_DISABLED" "ADB disable_wifi FAILED"].
Proof. vm_compute. reflexivity. Qed.

Example scenario_send_not_connected :
  send_command (R := runtime) (W := adb_succeeds) bt_ready init
  = (Return tt, extends init [Log ERROR "No conectado — no se puede enviar comando"]).
Proof. vm_compute. reflexivity. Qed.

Example scenario_send_write_fails :
  send_command (R := runtime) (W := adb_fails) bt_ready (online [] [])
  = (Return tt,
     extends (online [] [])
       [GattWrite SDN_CMD_WRITE_UUID (wire (R := runtime) bt_ready) true;
        Log ERROR "Error enviando comando: Not connected"]).
Proof. vm_compute. reflexivity. Qed.

Example scenario_drain_empty_twice :
  send_pending (R := runtime) (W := adb_succeeds) 0 init = (Return tt, init)
  /\ send_pending (R := runtime) (W := adb_succeeds) 0
       (snd (send_pending (R := runtime) (W := adb_succeeds) 0 init)) = (Return tt, init).
Proof. split; reflexivity. Qed.

Example scenario_adb_timeout :
  fst (adb_exec (W := adb_times_out) "svc wifi enable" init) = Return (false, "timeout").
Proof. vm_compute. reflexivity. Qed.

Example scenario_adb_missing :
  fst (adb_exec (W := adb_missing) "svc wifi enable" init)
  = Return (false, "[Errno 2] No such file or directory: 'adb'").
Proof. vm_compute. reflexivity. Qed.

Example scenario_not_json_dropped :
  pending_commands
    (snd (_on_radio_request_notify (R := runtime) (W := adb_succeeds)
            SDN_RADIO_REQ_UUID not_json init)) = []
  /\ malformed (R := runtime) not_json = true
  /\ malformed (R := runtime) not_object = true.
Proof. repeat split; vm_compute; reflexivity. Qed.

(** The main loop sends the queued confirmation, sleeps, and ends when the
    link is gone. *)
Example scenario_run_loop :
  run_loop (R := runtime) (W := adb_succeeds) 2 link_drops
  = (Return tt,
     mk_state (Some false) true [] true
       [Log INFO "═══ BLE Bridge activo — esperando radio-requests del teléfono ═══";
        Log INFO "  Ctrl+C para salir";
        GattWrite SDN_CMD_WRITE_UUID (wire (R := runtime) bt_ready) true;
        Log INFO "→ Comando enviado: BT_READY";
        AsyncSleep (1 # 2)%Q;
        Log INFO "Loop terminado"]
       []).
Proof. vm_compute. reflexivity. Qed.

End Runs.

(* ================================================================== *)
(** * Further properties of the code *)

Section Further.
Context {R : PyRuntime} {W : World}.
Import SdnBleController.

Lemma effects_app (t u : list event) : effects (t ++ u) = (effects t ++ effects u)%list.
Proof. unfold effects. apply filter_app. Qed.

Lemma py_split_adb (command : string) :
  py_split (ADB_CMD ++ " shell " ++ command) = "adb" :: "shell" :: py_split command.
Proof. destruct command; reflexivity. Qed.

Lemma effects_adb_events (command : string) (r : exn + completed) :
  effects (adb_events command r) = [Subprocess ("adb" :: "shell" :: py_split command) 10].
Proof.
  unfold adb_events. rewrite py_split_adb, effects_app. destruct r as [e|c].
  - now destruct (is_timeout e).
  - now destruct (nonempty (py_strip (stdout c))).
Qed.

(** X1. Whatever the command, [adb_exec] starts exactly one subprocess, on
    the argument vector adb, shell and then the whitespace-separated words
    of the command, with a timeout of 10; everything else it does is
    logging. *)
Theorem adb_exec_runs_adb_shell (command : string) (st : state) :
  exists r evs,
    adb_exec command st = (Return r, extends st evs)
    /\ effects evs = [Subprocess ("adb" :: "shell" :: py_split command) 10].
Proof.
  eexists _, _. split; [apply adb_exec_spec|apply effects_adb_events].
Qed.

(** X2. For each known action the handler runs exactly one subprocess:
    adb shell svc bluetooth enable, adb shell svc bluetooth disable,
    adb shell svc wifi enable or adb shell svc wifi disable, each with a
    timeout of 10. *)
Theorem handle_radio_request_commands (a : known_action) (reason : pyval) (st : state) :
  exists conf evs,
    handle_radio_request (PyStr (action_name a)) reason st = (Return conf, extends st evs)
    /\ filter is_subprocess evs = [Subprocess (known_argv a) 10].
Proof.
  eexists _, _. split; [apply (handle_known a); apply known_of_name|].
  unfold request_line. cbn [filter is_subprocess]. rewrite filter_app.
  assert (Hadb : forall command r,
             filter is_subprocess (adb_events command r)
             = [Subprocess ("adb" :: "shell" :: py_split command) 10]).
  { intros command r. unfold adb_events. rewrite py_split_adb. destruct r as [e|c].
    - now destruct (is_timeout e).
    - now destruct (nonempty (py_strip (stdout c))). }
  rewrite Hadb. destruct (run_ok _); destruct a; reflexivity.
Qed.

(** X3. The reason of a request is only logged: for the same action and
    state, two different reasons give the same confirmation and the same
    subprocess runs and sleeps. *)
Theorem handle_radio_request_ignores_reason (action reason1 reason2 : pyval) (st : state) :
  exists conf evs1 evs2,
    handle_radio_request action reason1 st = (Return conf, extends st evs1)
    /\ handle_radio_request action reason2 st = (Return conf, extends st evs2)
    /\ effects evs1 = effects evs2.
Proof.
  destruct (known_of action) as [a|] eqn:Hk.
  - eexists _, _, _. split; [apply (handle_known a); exact Hk|].
    split; [apply (handle_known a); exact Hk|]. reflexivity.
  - eexists _, _, _. split; [apply handle_unknown; exact Hk|].
    split; [apply handle_unknown; exact Hk|]. reflexivity.
Qed.

(** X4. A request object whose action is not a string (a number, a list,
    null, ...) is answered like an unknown action: the callback appends the
    UNKNOWN confirmation whose reason ends in the text of that value, and
    the executor is not invoked. *)
Theorem radio_request_non_string_action (sender : string) (data : list byte) (s : string)
    (entries : list (string * pyval)) (v : pyval) (st : state) :
  bytes_decode data = inr s ->
  json_loads s = inr (PyDict entries) ->
  dict_lookup "action" entries = Some v ->
  is_str v = false ->
  exists st',
    _on_radio_request_notify sender data st = (Return tt, st')
    /\ pending_commands st'
       = (pending_commands st
          ++ [confirmation "UNKNOWN" ("Unknown action: " ++ py_repr v)])%list
    /\ exec_count (trace st') = exec_count (trace st).
Proof.
  intros Hd Hp Ha Hv.
  destruct (radio_request_object sender data s entries st Hd Hp)
    as (conf & evs & Hh & _ & Hcb).
  assert (Hact : request_action entries = v).
  { unfold request_action, field. now rewrite Ha. }
  assert (Hk : known_of v = None) by (destruct v; try discriminate; reflexivity).
  assert (Hs : py_str v = py_repr v) by (destruct v; try discriminate; reflexivity).
  rewrite Hact in Hh. rewrite (handle_unknown v _ _ Hk) in Hh.
  injection Hh as <- Hst.
  eexists. split; [exact Hcb|]. split.
  - unfold unknown_confirmation. now rewrite Hs.
  - change (exec_count (trace st ++ received_line s :: evs) = exec_count (trace st)).
    rewrite <- Hst. now rewrite !exec_count_app, !Nat.add_0_r.
Qed.

Lemma py_prefix_is_prefix (n : nat) (s : string) :
  exists rest, s = py_prefix n s ++ rest.
Proof.
  revert n. induction s as [|c s IH]; intros n; [now exists EmptyString|].
  cbn [py_prefix]. destruct (between 128 191 (byte_code c)).
  - destruct (IH n) as (rest & Hrest). exists rest. cbn. now rewrite <- Hrest.
  - destruct n as [|n]; [now exists (String c s)|].
    destruct (IH n) as (rest & Hrest). exists rest. cbn. now rewrite <- Hrest.
Qed.

Lemma py_prefix_count (n : nat) (s : string) :
  code_point_count (py_prefix n s) <= n.
Proof.
  revert n. induction s as [|c s IH]; intros n; [cbn; lia|].
  cbn [py_prefix]. destruct (between 128 191 (byte_code c)) eqn:Hc.
  - cbn [code_point_count]. rewrite Hc. apply IH.
  - destruct n as [|n]; [cbn; lia|].
    cbn [code_point_count]. rewrite Hc. specialize (IH n). lia.
Qed.

Lemma py_prefix_short (n : nat) (s : string) :
  code_point_count s <= n -> py_prefix n s = s.
Proof.
  revert n. induction s as [|c s IH]; intros n Hn; [reflexivity|].
  cbn [py_prefix code_point_count] in *.
  destruct (between 128 191 (byte_code c)).
  - now rewrite IH.
  - destruct n as [|n]; [lia|]. rewrite IH; [reflexivity|lia].
Qed.

(** X5. The telemetry callback never raises and touches nothing but the
    log: it adds exactly one line.  For bytes that do not decode the line is
    an error; otherwise it shows a prefix of the decoded text of at most 200
    code points, and the whole text when that has at most 200. *)
Theorem response_notify_logs_one_line (sender : string) (data : list byte) (st : state) :
  exists line,
    _on_response_notify sender data st = (Return tt, extends st [line])
    /\ (forall e, bytes_decode data = inl e ->
        line = Log ERROR ("Error parseando response: " ++ exn_str e))
    /\ (forall s, bytes_decode data = inr s ->
        exists shown rest,
          line = Log INFO ("📱 Response: " ++ shown)
          /\ s = shown ++ rest
          /\ code_point_count shown <= 200
          /\ (code_point_count s <= 200 -> shown = s)).
Proof.
  unfold _on_response_notify. destruct (bytes_decode data) as [e|s]; munfold.
  - eexists. split; [reflexivity|]. split; [|discriminate].
    intros e' He. now injection He as <-.
  - eexists. split; [reflexivity|]. split; [discriminate|].
    intros s' Hs. injection Hs as <-.
    destruct (py_prefix_is_prefix 200 s) as (rest & Hrest).
    exists (py_prefix 200 s), rest. split; [reflexivity|]. split; [exact Hrest|].
    split; [apply py_prefix_count|apply py_prefix_short].
Qed.

(** What one run of the radio-request callback does to the queue. *)
Lemma radio_request_growth (sender : string) (data : list byte) (st : state) :
  exists new,
    pending_commands (snd (_on_radio_request_notify sender data st))
    = (pending_commands st ++ new)%list
    /\ length new = (if malformed data then 0 else 1).
Proof.
  unfold malformed. destruct (bytes_decode data) as [e|s] eqn:Hd.
  { rewrite (radio_request_undecodable _ _ _ _ Hd). exists []. cbn.
    now rewrite app_nil_r. }
  destruct (json_loads s) as [e|v] eqn:Hp.
  { rewrite (radio_request_unparseable _ _ _ _ _ Hd Hp). exists []. cbn.
    now rewrite app_nil_r. }
  destruct (is_dict v) eqn:Hv.
  - destruct v; try discriminate.
    destruct (radio_request_object sender _ _ _ st Hd Hp) as (conf & evs & _ & _ & ->).
    exists [conf]. split; reflexivity.
  - rewrite (radio_request_not_object _ _ _ _ _ Hd Hp Hv). exists []. cbn.
    now rewrite app_nil_r.
Qed.

(** X6. Over any sequence of radio-request payloads handled one after the
    other, the queue keeps what it held, in place, and grows at its end by
    exactly one confirmation per payload that is not malformed. *)
Theorem dispatch_all_counts (payloads : list (list byte)) (st : state) :
  exists new,
    pending_commands (dispatch_all payloads st) = (pending_commands st ++ new)%list
    /\ length new = length (filter (fun data => negb (malformed data)) payloads).
Proof.
  revert st. induction payloads as [|data payloads IH]; intros st.
  - exists []. cbn. now rewrite app_nil_r.
  - cbn [dispatch_all fold_left].
    fold (dispatch_all payloads (snd (_on_radio_request_notify SDN_RADIO_REQ_UUID data st))).
    destruct (radio_request_growth SDN_RADIO_REQ_UUID data st) as (new1 & Hq1 & Hn1).
    destruct (IH (snd (_on_radio_request_notify SDN_RADIO_REQ_UUID data st)))
      as (new2 & Hq2 & Hn2).
    exists (new1 ++ new2)%list. split.
    + now rewrite Hq2, Hq1, <- app_assoc.
    + rewrite length_app, Hn1, Hn2. cbn [filter].
      destruct (malformed data); reflexivity.
Qed.


(** *** The main loop *)

Lemma firstn_plus {A} (n m : nat) (l : list A) :
  firstn (n + m) l = (firstn n l ++ firstn m (skipn n l))%list.
Proof.
  revert l. induction n as [|n IH]; intros l; [reflexivity|].
  destruct l as [|x l]; cbn; [now destruct m|]. now rewrite IH.
Qed.

Lemma consumed_refl (st : state) : consumed 0 st st.
Proof.
  repeat split.
  - cbn. now rewrite andb_true_r.
  - exists []. now rewrite app_nil_r.
Qed.

Lemma consumed_trans (m1 m2 : nat) (s1 s2 s3 : state) :
  consumed m1 s1 s2 -> consumed m2 s2 s3 -> consumed (m1 + m2) s1 s3.
Proof.
  intros (Hs1 & Ha1 & more1 & Ht1) (Hs2 & Ha2 & more2 & Ht2). repeat split.
  - rewrite Hs2, Hs1, skipn_skipn. f_equal. lia.
  - rewrite Ha2, Ha1, Hs1, firstn_plus, existsb_app, negb_orb. now rewrite andb_assoc.
  - exists (more1 ++ more2)%list. now rewrite Ht2, Ht1, app_assoc.
Qed.

(** A step that leaves the flag, the client and the schedule alone and
    only adds to the trace. *)
Lemma consumed_same (st st' : state) (evs : list event) :
  running st' = running st -> client st' = client st -> schedule st' = schedule st ->
  trace st' = (trace st ++ evs)%list ->
  consumed 0 st st'.
Proof.
  intros Hr Hc Hs Ht. repeat split.
  - exact Hs.
  - unfold alive, link_up. rewrite Hr, Hc. cbn. now rewrite andb_true_r.
  - exists (transmissions evs). now rewrite Ht, transmissions_app.
Qed.

Lemma radio_request_shape (sender : string) (data : list byte) (st : state) :
  exists q evs,
    snd (_on_radio_request_notify sender data st) = set_pending q (extends st evs)
    /\ transmissions evs = [].
Proof.
  destruct (bytes_decode data) as [e|s] eqn:Hd.
  { rewrite (radio_request_undecodable _ _ _ _ Hd). eexists (pending_commands st), _.
    split; reflexivity. }
  destruct (json_loads s) as [e|v] eqn:Hp.
  { rewrite (radio_request_unparseable _ _ _ _ _ Hd Hp). eexists (pending_commands st), _.
    split; reflexivity. }
  destruct (is_dict v) eqn:Hv.
  - destruct v; try discriminate.
    destruct (radio_request_object sender _ _ _ st Hd Hp) as (conf & evs & _ & Ht & ->).
    eexists _, _. split; [reflexivity|exact Ht].
  - rewrite (radio_request_not_object _ _ _ _ _ Hd Hp Hv). eexists (pending_commands st), _.
    split; reflexivity.
Qed.

Lemma occur_consumed (o : occurrence) (st : state) :
  schedule (occur o st) = schedule st
  /\ alive (occur o st) = alive st && negb (is_signal o || is_link_lost o)
  /\ transmissions (trace (occur o st)) = transmissions (trace st).
Proof.
  destruct o as [data|data| |]; cbn [occur is_signal is_link_lost orb negb].
  - unfold _on_response_notify. destruct (bytes_decode data); munfold; cbn [snd];
      (repeat split; [now rewrite andb_true_r|cbn; now rewrite transmissions_app, app_nil_r]).
  - destruct (radio_request_shape SDN_RADIO_REQ_UUID data st) as (q & evs & -> & Ht).
    repeat split; [now rewrite andb_true_r|].
    cbn. now rewrite transmissions_app, Ht, app_nil_r.
  - unfold alive, link_up. destruct (client st) as [up|] eqn:Hc; cbn; rewrite ?Hc;
      repeat split; now rewrite ?andb_false_r.
  - unfold signal_handler. munfold. cbn [snd]. repeat split.
    + unfold alive. cbn. now rewrite andb_false_r.
    + cbn. now rewrite transmissions_app, app_nil_r.
Qed.

Lemma occur_all_consumed (os : list occurrence) (st : state) :
  schedule (occur_all os st) = schedule st
  /\ alive (occur_all os st) = alive st && negb (halts os)
  /\ transmissions (trace (occur_all os st)) = transmissions (trace st).
Proof.
  revert st. induction os as [|o os IH]; intros st.
  - cbn. now rewrite andb_true_r.
  - cbn [occur_all fold_left]. fold (occur_all os (occur o st)).
    destruct (IH (occur o st)) as (Hs & Ha & Ht).
    destruct (occur_consumed o st) as (Hs1 & Ha1 & Ht1).
    repeat split; [congruence| |congruence].
    rewrite Ha, Ha1. unfold halts. cbn [existsb].
    destruct (alive st), (is_signal o || is_link_lost o), (existsb _ os); reflexivity.
Qed.

Lemma suspend_returns (st : state) : suspend st = (Return tt, snd (suspend st)).
Proof. unfold suspend. now destruct (schedule st). Qed.

Lemma suspend_consumed (st : state) : consumed 1 st (snd (suspend st)).
Proof.
  unfold suspend, consumed. destruct (schedule st) as [|os later] eqn:Hs; cbn [snd].
  - rewrite Hs. cbn. rewrite andb_true_r. repeat split.
    exists []. now rewrite app_nil_r.
  - destruct (occur_all_consumed os (set_schedule later st)) as (Hs' & Ha & Ht).
    rewrite Hs', Ha, Ht. cbn. rewrite orb_false_r. repeat split.
    exists []. now rewrite app_nil_r.
Qed.

Lemma send_command_consumed (command : pyval) (st : state) :
  exists st',
    send_command command st = (Return tt, st')
    /\ consumed (if link_up st then 1 else 0) st st'.
Proof.
  unfold send_command. destruct (link_up st) eqn:Hl; cbn [negb].
  - unfold write_gatt_char. munfold. rewrite suspend_returns.
    pose proof (suspend_consumed
                  (record (GattWrite SDN_CMD_WRITE_UUID
                             (list_byte_of_string (json_dumps command)) true) st)) as Hc.
    set (mid := snd (suspend _)) in *.
    assert (Hfirst : consumed 0 st
              (record (GattWrite SDN_CMD_WRITE_UUID
                         (list_byte_of_string (json_dumps command)) true) st)).
    { eapply consumed_same; reflexivity. }
    pose proof (consumed_trans _ _ _ _ _ Hfirst Hc) as Hmid. cbn [Nat.add] in Hmid.
    assert (Hlast : forall line, consumed 1 st (record (Log ERROR line) mid)
                                 /\ consumed 1 st (record (Log INFO line) mid)).
    { intros line. split;
        (replace 1 with (1 + 0) by reflexivity; eapply consumed_trans; [exact Hmid|];
         eapply consumed_same; reflexivity). }
    destruct (write_result _ _) as [e|].
    + eexists. split; [reflexivity|]. apply Hlast.
    + destruct command; (eexists; split; [reflexivity|]; apply Hlast).
  - eexists. split; [reflexivity|]. eapply consumed_same; reflexivity.
Qed.

Lemma send_pending_consumed (fuel : nat) :
  forall st st',
    send_pending fuel st = (Return tt, st') -> exists m, consumed m st st'.
Proof.
  induction fuel as [|fuel IH]; intros st st' Hrun; cbn [send_pending] in Hrun;
    destruct (pending_commands st) as [|cmd rest] eqn:Hq;
    try (injection Hrun as <-; exists 0; apply consumed_refl); try discriminate.
  destruct (send_command_consumed cmd (set_pending rest st)) as (s1 & Hsend & Hc1).
  unfold bind in Hrun. rewrite Hsend in Hrun.
  destruct (IH s1 st' Hrun) as (m & Hc2).
  assert (Hc0 : consumed 0 st (set_pending rest st)).
  { apply (consumed_same _ _ []); try reflexivity. cbn. now rewrite app_nil_r. }
  eexists. eapply consumed_trans; [|exact Hc2].
  replace (if link_up (set_pending rest st) then 1 else 0)
    with (0 + (if link_up (set_pending rest st) then 1 else 0)) in Hc1 by reflexivity.
  eapply consumed_trans; [exact Hc0|exact Hc1].
Qed.

(** One pass of the main loop: the drain and the sleep. *)
Lemma main_loop_pass (st : state) :
  alive st = true ->
  exists st2 m,
    1 <= m /\ consumed m st st2
    /\ forall fuel, main_loop (S fuel) st = main_loop fuel st2.
Proof.
  intros Ha.
  destruct (send_pending_empties (pending_budget st) st (le_n _)) as (s1 & Hdrain & _).
  destruct (send_pending_consumed _ _ _ Hdrain) as (m1 & Hc1).
  pose proof (suspend_consumed (record (AsyncSleep (1 # 2)%Q) s1)) as Hc2.
  assert (Hc0 : consumed 0 s1 (record (AsyncSleep (1 # 2)%Q) s1))
    by (eapply consumed_same; reflexivity).
  exists (snd (suspend (record (AsyncSleep (1 # 2)%Q) s1))), (m1 + (0 + 1)).
  split; [lia|]. split.
  - eapply consumed_trans; [exact Hc1|]. eapply consumed_trans; [exact Hc0|exact Hc2].
  - intros fuel. unfold alive in Ha. cbn [main_loop]. rewrite Ha.
    unfold bind at 1. rewrite Hdrain.
    unfold asyncio_sleep. munfold. now rewrite suspend_returns.
Qed.

Lemma main_loop_ends (fuel : nat) (st : state) :
  alive st = false -> main_loop fuel st = (Return tt, st).
Proof. intros Ha. unfold alive in Ha. destruct fuel; cbn [main_loop]; now rewrite Ha. Qed.

Lemma halts_in_firstn (l : list (list occurrence)) :
  forall k m, k < m -> halts (nth k l []) = true -> existsb halts (firstn m l) = true.
Proof.
  induction l as [|os l IH]; intros k m Hk Hh.
  - destruct k; discriminate.
  - destruct m as [|m]; [lia|]. cbn [firstn existsb]. destruct k as [|k].
    + cbn [nth] in Hh. now rewrite Hh.
    + rewrite (IH k m); [apply orb_true_r|lia|exact Hh].
Qed.

Lemma main_loop_halts (fuel : nat) :
  forall k st,
    halts (nth k (schedule st) []) = true -> k < fuel ->
    exists st', main_loop fuel st = (Return tt, st') /\ alive st' = false.
Proof.
  induction fuel as [|fuel IH]; intros k st Hh Hk; [lia|].
  destruct (alive st) eqn:Ha.
  - destruct (main_loop_pass st Ha) as (st2 & m & Hm & (Hs & Ha2 & _) & Hstep).
    rewrite Hstep. destruct (Nat.ltb_spec k m) as [Hlt|Hge].
    + exists st2. rewrite (halts_in_firstn _ _ _ Hlt Hh), andb_false_r in Ha2.
      split; [now apply main_loop_ends|exact Ha2].
    + apply (IH (k - m)); [|lia].
      rewrite Hs, nth_skipn. replace (m + (k - m)) with k by lia. exact Hh.
  - exists st. split; [now apply main_loop_ends|exact Ha].
Qed.

Lemma main_loop_goes_on (fuel : nat) :
  forall st,
    alive st = true -> existsb halts (schedule st) = false ->
    fst (main_loop fuel st) = OutOfFuel.
Proof.
  induction fuel as [|fuel IH]; intros st Ha Hn.
  - unfold alive in Ha. cbn [main_loop]. now rewrite Ha.
  - destruct (main_loop_pass st Ha) as (st2 & m & _ & (Hs & Ha2 & _) & Hstep).
    rewrite Hstep.
    rewrite <- (firstn_skipn m (schedule st)), existsb_app in Hn.
    apply orb_false_iff in Hn. destruct Hn as [Hn1 Hn2].
    apply IH; [now rewrite Ha2, Ha, Hn1|now rewrite Hs].
Qed.

Lemma main_loop_outcome (fuel : nat) :
  forall st,
    fst (main_loop fuel st) = OutOfFuel
    \/ exists st' m, main_loop fuel st = (Return tt, st') /\ alive st' = false
                    /\ consumed m st st'.
Proof.
  induction fuel as [|fuel IH]; intros st; destruct (alive st) eqn:Ha.
  - left. unfold alive in Ha. cbn [main_loop]. now rewrite Ha.
  - right. exists st, 0. split; [now apply main_loop_ends|]. split; [exact Ha|].
    apply consumed_refl.
  - destruct (main_loop_pass st Ha) as (st2 & m & _ & Hc & Hstep). rewrite Hstep.
    destruct (IH st2) as [Hout|(st' & m' & Hrun & Ha' & Hc')]; [now left|].
    right. exists st', (m + m'). split; [exact Hrun|]. split; [exact Ha'|].
    eapply consumed_trans; [exact Hc|exact Hc'].
  - right. exists st, 0. split; [now apply main_loop_ends|]. split; [exact Ha|].
    apply consumed_refl.
Qed.

Lemma run_loop_unfold (fuel : nat) (st : state) :
  run_loop fuel st
  = (main_loop fuel ;; log_info "Loop terminado") (extends st banner).
Proof.
  unfold run_loop, banner. munfold. rewrite !record_extends, extends_extends. reflexivity.
Qed.

Lemma consumed_banner (st : state) : consumed 0 st (extends st banner).
Proof. eapply consumed_same; reflexivity. Qed.

(** X8. Cooperative stop.  If a signal arrives or the link is lost during
    the k-th coming suspension, [run_loop] returns normally after at most
    k+1 passes of its loop; the loop condition is then false and its last
    log line is "Loop terminado". *)
Theorem run_loop_stops (fuel k : nat) (st : state) :
  halts (nth k (schedule st) []) = true ->
  k < fuel ->
  exists st' before,
    run_loop fuel st = (Return tt, st')
    /\ alive st' = false
    /\ trace st' = (before ++ [Log INFO "Loop terminado"])%list.
Proof.
  intros Hh Hk. rewrite run_loop_unfold.
  destruct (main_loop_halts fuel k (extends st banner) Hh Hk) as (s1 & Hrun & Ha).
  unfold bind. rewrite Hrun. munfold. eexists _, _. split; [reflexivity|].
  split; [exact Ha|reflexivity].
Qed.

(** X9. Without a signal and with the link held, the loop does not end:
    from a state in which the loop condition holds and whose schedule has
    neither a signal nor a lost link, [run_loop] is still running after any
    number of passes. *)
Theorem run_loop_runs_until_stopped (fuel : nat) (st : state) :
  alive st = true ->
  existsb halts (schedule st) = false ->
  fst (run_loop fuel st) = OutOfFuel.
Proof.
  intros Ha Hn. rewrite run_loop_unfold. unfold bind.
  pose proof (main_loop_goes_on fuel (extends st banner) Ha Hn) as Hout.
  destruct (main_loop fuel (extends st banner)) as [r s1]. cbn in Hout. now subst r.
Qed.

(** X10. [run_loop] never raises.  When it returns, the stop flag is set or
    the link is down, what was written to the peer has only grown, and its
    last log line is "Loop terminado".  Entered with the stop flag set or
    without a live link it returns at once: it logs its three lines, the
    queue keeps whatever it held and nothing is written. *)
Theorem run_loop_outcome (fuel : nat) (st : state) :
  (fst (run_loop fuel st) = OutOfFuel
   \/ exists st' before more,
        run_loop fuel st = (Return tt, st')
        /\ alive st' = false
        /\ trace st' = (before ++ [Log INFO "Loop terminado"])%list
        /\ transmissions (trace st') = (transmissions (trace st) ++ more)%list)
  /\ (alive st = false ->
      run_loop fuel st
      = (Return tt, extends st (banner ++ [Log INFO "Loop terminado"]))).
Proof.
  rewrite run_loop_unfold. split.
  - destruct (main_loop_outcome fuel (extends st banner))
      as [Hout|(s1 & m & Hrun & Ha & (_ & _ & more & Ht))].
    + left. unfold bind. destruct (main_loop fuel (extends st banner)) as [r s1].
      cbn in Hout. now subst r.
    + right. unfold bind. rewrite Hrun. munfold. eexists _, _, more.
      split; [reflexivity|]. split; [exact Ha|]. split; [reflexivity|].
      cbn [trace record set_trace]. rewrite transmissions_app, Ht. cbn.
      now rewrite transmissions_app, !app_nil_r.
  - intros Ha. unfold bind. rewrite main_loop_ends by exact Ha.
    munfold. now rewrite record_extends, extends_extends.
Qed.

Lemma send_pending_nil (fuel : nat) (st : state) :
  pending_commands st = [] -> send_pending fuel st = (Return tt, st).
Proof. intros Hq. destruct fuel; cbn [send_pending]; now rewrite Hq. Qed.

Lemma send_pending_first (fuel : nat) (st st' : state) (cmd : pyval) (rest : list pyval) :
  pending_commands st = cmd :: rest ->
  link_up st = true ->
  send_pending fuel st = (Return tt, st') ->
  exists more,
    transmissions (trace st') = (transmissions (trace st) ++ wire cmd :: more)%list.
Proof.
  intros Hq Hl Hrun. destruct fuel as [|fuel]; cbn [send_pending] in Hrun; rewrite Hq in Hrun;
    [discriminate|].
  destruct (send_command_frame cmd (set_pending rest st)) as (s1 & Hsend & _ & Ht & _).
  change (link_up (set_pending rest st)) with (link_up st) in Ht. rewrite Hl in Ht.
  unfold bind in Hrun. rewrite Hsend in Hrun.
  destruct (send_pending_consumed _ _ _ Hrun) as (m & _ & _ & more & Hmore).
  exists more. rewrite Hmore, Ht. cbn. now rewrite <- app_assoc.
Qed.

Lemma main_loop_grows (fuel : nat) :
  forall st, exists more,
    transmissions (trace (snd (main_loop fuel st)))
    = (transmissions (trace st) ++ more)%list.
Proof.
  induction fuel as [|fuel IH]; intros st; destruct (alive st) eqn:Ha;
    try (rewrite main_loop_ends by exact Ha; exists []; cbn; now rewrite app_nil_r).
  - unfold alive in Ha. cbn [main_loop]. rewrite Ha. exists []. cbn. now rewrite app_nil_r.
  - destruct (main_loop_pass st Ha) as (st2 & m & _ & (_ & _ & more1 & Ht1) & Hstep).
    rewrite Hstep. destruct (IH st2) as (more2 & Ht2).
    exists (more1 ++ more2)%list. now rewrite Ht2, Ht1, app_assoc.
Qed.

(** A queued item is written in the very next pass of a live loop. *)
Lemma main_loop_sends_head (fuel : nat) (st : state) (cmd : pyval) (rest : list pyval) :
  alive st = true ->
  pending_commands st = cmd :: rest ->
  exists more,
    transmissions (trace (snd (main_loop (S fuel) st)))
    = (transmissions (trace st) ++ wire cmd :: more)%list.
Proof.
  intros Ha Hq.
  destruct (send_pending_empties (pending_budget st) st (le_n _)) as (s1 & Hdrain & _).
  assert (Hl : link_up st = true) by (unfold alive in Ha; now apply andb_true_iff in Ha).
  destruct (send_pending_first _ _ _ _ _ Hq Hl Hdrain) as (more1 & Ht1).
  pose proof (suspend_consumed (record (AsyncSleep (1 # 2)%Q) s1)) as (_ & _ & more2 & Ht2).
  destruct (main_loop_grows fuel (snd (suspend (record (AsyncSleep (1 # 2)%Q) s1))))
    as (more3 & Ht3).
  unfold alive in Ha. cbn [main_loop]. rewrite Ha.
  unfold bind at 1. rewrite Hdrain. unfold asyncio_sleep. munfold.
  rewrite suspend_returns. rewrite Ht3, Ht2.
  cbn [trace record set_trace]. rewrite transmissions_app, Ht1. cbn.
  exists (more1 ++ more2 ++ more3)%list. rewrite app_nil_r, <- !app_assoc. reflexivity.
Qed.

(** X11. From the dispatcher to the wire.  When the loop is live with an
    empty queue and a radio-request whose payload is a JSON object arrives
    during its sleep, the next thing written to the peer is the JSON text of
    the confirmation of that request: the table row for a known action, the
    UNKNOWN confirmation otherwise. *)
Theorem radio_request_answered_next_pass (fuel : nat) (st : state) (data : list byte)
    (s : string) (entries : list (string * pyval)) (later : list (list occurrence)) :
  alive st = true ->
  pending_commands st = [] ->
  schedule st = [RadioRequestNotify data] :: later ->
  bytes_decode data = inr s ->
  json_loads s = inr (PyDict entries) ->
  exists conf more,
    transmissions (trace (snd (run_loop (S (S fuel)) st)))
    = (transmissions (trace st) ++ wire conf :: more)%list
    /\ (known_of (request_action entries) = None ->
        conf = unknown_confirmation (request_action entries))
    /\ (forall a, known_of (request_action entries) = Some a ->
        exists ok, conf = spec_confirmation a ok).
Proof.
  intros Ha Hq Hs Hd Hp. rewrite run_loop_unfold.
  set (st0 := extends st banner).
  set (s1 := set_schedule later (record (AsyncSleep (1 # 2)%Q) st0)).
  destruct (radio_request_object SDN_RADIO_REQ_UUID data s entries s1 Hd Hp)
    as (conf & evs & Hh & Ht & Hcb).
  set (s2 := set_pending (pending_commands s1 ++ [conf])%list
               (extends s1 (received_line s :: evs))) in *.
  assert (Hpass : main_loop (S (S fuel)) st0 = main_loop (S fuel) s2).
  { unfold alive in Ha. cbn [main_loop].
    change (running st0 && link_up st0) with (running st && link_up st). rewrite Ha.
    unfold bind at 1. rewrite send_pending_nil by exact Hq.
    unfold asyncio_sleep, suspend. munfold.
    change (schedule (record (AsyncSleep (1 # 2)%Q) st0)) with (schedule st). rewrite Hs.
    cbn [occur_all fold_left occur]. fold s1. now rewrite Hcb. }
  assert (Ha2 : alive s2 = true) by exact Ha.
  assert (Hq2 : pending_commands s2 = conf :: []).
  { unfold s2. cbn [pending_commands set_pending]. unfold s1, st0. cbn. now rewrite Hq. }
  destruct (main_loop_sends_head fuel s2 conf [] Ha2 Hq2) as (more & Hmore).
  exists conf, more. split.
  - unfold bind. rewrite Hpass. destruct (main_loop (S fuel) s2) as [[u|e|] s3];
      cbn [snd] in *; munfold; cbn [snd trace record set_trace];
      rewrite ?transmissions_app, Hmore; unfold s2, s1, st0; cbn;
      rewrite !transmissions_app; unfold received_line, banner; cbn [transmissions];
      rewrite Ht, ?app_nil_r; reflexivity.
  - split.
    + intros Hk. rewrite (handle_unknown _ _ _ Hk) in Hh. now injection Hh as <-.
    + intros a Hk. rewrite (handle_known a _ _ _ Hk) in Hh. injection Hh as <-.
      eexists. reflexivity.
Qed.

End Further.

(* ================================================================== *)
(** * Discovery, connection and main *)

Section Lifecycle.
Context {T : PyText} {S : Stack} {R : PyRuntime} {W : World}.
Import SdnBleController.

Lemma py_lower_service : py_lower SDN_SERVICE_UUID = SDN_SERVICE_UUID.
Proof. reflexivity. Qed.

Lemma existsb_eqb_map (x : string) (f : string -> string) (l : list string) :
  existsb (String.eqb x) (map f l) = existsb (fun u => String.eqb (f u) x) l.
Proof.
  induction l as [|u l IH]; [reflexivity|]. cbn. now rewrite IH, String.eqb_sym.
Qed.

Lemma examine_spec (discovered : list Bleak.device) :
  forall devices st,
    examine discovered devices st
    = (Return (devices ++ filter advertises_sdn discovered)%list,
       extends st (scan_lines discovered)).
Proof.
  induction discovered as [|d rest IH]; intros devices st.
  - cbn. unfold ret, extends, set_trace. rewrite !app_nil_r. now destruct st.
  - cbn [examine]. rewrite py_lower_service, existsb_eqb_map.
    fold (advertises_sdn d). fold (name_hints_sdn d).
    unfold scan_lines. cbn [flat_map filter]. fold (scan_lines rest).
    destruct (advertises_sdn d).
    + munfold. rewrite IH, record_extends, extends_extends, <- app_assoc. reflexivity.
    + destruct (name_hints_sdn d); munfold.
      * rewrite IH, record_extends, extends_extends. reflexivity.
      * rewrite IH. reflexivity.
Qed.

Lemma quiet_refl (st : state) : quiet st st.
Proof. split; reflexivity. Qed.

Lemma quiet_trans (s1 s2 s3 : state) : quiet s1 s2 -> quiet s2 s3 -> quiet s1 s3.
Proof. intros [Hc1 Ht1] [Hc2 Ht2]. split; congruence. Qed.

Lemma quiet_extends (st : state) (evs : list event) :
  transmissions evs = [] -> quiet st (extends st evs).
Proof.
  intros Ht. split; [reflexivity|]. cbn. now rewrite transmissions_app, Ht, app_nil_r.
Qed.

Lemma occur_connected (o : occurrence) (st : state) :
  connected (occur o st) = connected st
  /\ (link_up st = false -> link_up (occur o st) = false).
Proof.
  destruct o as [data|data| |]; cbn [occur].
  - unfold _on_response_notify. destruct (bytes_decode data); munfold; cbn [snd];
      split; auto.
  - destruct (radio_request_shape SDN_RADIO_REQ_UUID data st) as (q & evs & -> & _).
    split; auto.
  - destruct (client st) eqn:Hc; split; auto.
  - unfold signal_handler. munfold. cbn [snd]. split; auto.
Qed.

Lemma suspend_quiet (st : state) :
  quiet st (snd (suspend st))
  /\ (link_up st = false -> link_up (snd (suspend st)) = false)
  /\ exists evs, trace (snd (suspend st)) = (trace st ++ evs)%list.
Proof.
  unfold suspend. destruct (schedule st) as [|os later]; cbn [snd].
  { split; [apply quiet_refl|]. split; [auto|]. exists []. now rewrite app_nil_r. }
  assert (Hall : forall l s,
             connected (occur_all l s) = connected s
             /\ (link_up s = false -> link_up (occur_all l s) = false)).
  { induction l as [|o l IH]; intros s; [split; auto|].
    cbn [occur_all fold_left]. fold (occur_all l (occur o s)).
    destruct (IH (occur o s)) as [Hc Hl]. destruct (occur_connected o s) as [Hc1 Hl1].
    split; [congruence|auto]. }
  destruct (Hall os (set_schedule later st)) as [Hc Hl].
  destruct (occur_all_consumed os (set_schedule later st)) as (_ & _ & Ht).
  destruct (occur_all_frame os (set_schedule later st)) as (_ & (evs & Hev & _) & _).
  split; [split; [exact Hc|exact Ht]|]. split; [exact Hl|]. exists evs. exact Hev.
Qed.

Lemma scan_spec (timeout : Q) (st : state) :
  scan_for_sdn_devices timeout st
  = match discover timeout with
    | inl e => (Raise e, snd (suspend (extends st [scan_start timeout])))
    | inr discovered =>
      (Return (filter advertises_sdn discovered),
       extends (snd (suspend (extends st [scan_start timeout])))
         (scan_lines discovered
          ++ (if is_nil (filter advertises_sdn discovered) then [none_found] else [])))
    end.
Proof.
  unfold scan_for_sdn_devices. fold (scan_start timeout). munfold.
  rewrite record_extends, suspend_returns.
  destruct (discover timeout) as [e|discovered]; [reflexivity|].
  rewrite examine_spec. cbn [app].
  destruct (is_nil (filter advertises_sdn discovered)).
  - now rewrite record_extends, extends_extends.
  - now rewrite app_nil_r.
Qed.

Lemma effects_scan_lines (discovered : list Bleak.device) :
  effects (scan_lines discovered) = []
  /\ ~ In none_found (scan_lines discovered).
Proof.
  induction discovered as [|d rest [IH1 IH2]]; [split; [reflexivity|intros []]|].
  unfold scan_lines. cbn [flat_map]. fold (scan_lines rest).
  rewrite effects_app. split.
  - rewrite IH1, app_nil_r.
    destruct (advertises_sdn d); [reflexivity|]. now destruct (name_hints_sdn d).
  - intros Hin. apply in_app_or in Hin. destruct Hin as [Hin|Hin]; [|now apply IH2].
    destruct (advertises_sdn d); [|destruct (name_hints_sdn d)];
      cbn in Hin; try (destruct Hin as [Hin|[]]); try discriminate; exact Hin.
Qed.

(** X12. [scan_for_sdn_devices] returns exactly the discovered devices one
    of whose advertised UUIDs is, in lower case, the SDN service UUID, in
    the order of discovery.  A device is never returned for its name alone.
    When the discovery raises, the scan raises the same exception. *)
Theorem scan_selects_advertisers (timeout : Q) (st : state) :
  fst (scan_for_sdn_devices timeout st)
  = match discover timeout with
    | inl e => Raise e
    | inr discovered => Return (filter advertises_sdn discovered)
    end.
Proof. rewrite scan_spec. now destruct (discover timeout). Qed.

(** X13. After a discovery that returned, the scan has only logged: beyond
    what happened while it waited for the discovery, it adds log lines and
    nothing else, and the warning that no SDN device was found is among them
    exactly when the scan returns no device. *)
Theorem scan_warns_when_empty (timeout : Q) (st : state) (discovered : list Bleak.device) :
  discover timeout = inr discovered ->
  exists lines,
    snd (scan_for_sdn_devices timeout st)
    = extends (snd (suspend (extends st [scan_start timeout]))) lines
    /\ effects lines = []
    /\ (In none_found lines <-> filter advertises_sdn discovered = []).
Proof.
  intros Hd. rewrite scan_spec, Hd. cbn [snd]. eexists. split; [reflexivity|].
  destruct (effects_scan_lines discovered) as [He Hn]. split.
  - rewrite effects_app, He. now destruct (is_nil _).
  - destruct (filter advertises_sdn discovered) as [|d l]; cbn [is_nil].
    + split; [reflexivity|]. intros _. apply in_or_app. right. now left.
    + rewrite app_nil_r. split; [intros Hin; now apply Hn in Hin|discriminate].
Qed.

Lemma log_characteristics_spec (chars : list Bleak.characteristic) :
  forall st, log_characteristics chars st = (Return tt, extends st (characteristic_lines chars)).
Proof.
  induction chars as [|c chars IH]; intros st.
  - cbn. unfold ret, extends, set_trace. rewrite app_nil_r. now destruct st.
  - cbn [log_characteristics characteristic_lines map]. munfold.
    rewrite IH, record_extends, extends_extends. reflexivity.
Qed.

Lemma log_services_spec (services : list Bleak.service) :
  forall st, log_services services st = (Return tt, extends st (service_lines services)).
Proof.
  induction services as [|service services IH]; intros st.
  - cbn. unfold ret, extends, set_trace. rewrite app_nil_r. now destruct st.
  - cbn [log_services service_lines flat_map]. fold (service_lines services). munfold.
    rewrite log_characteristics_spec, IH, record_extends, !extends_extends.
    reflexivity.
Qed.

Lemma connect_spec (address : string) (timeout : Q) (st : state) :
  connect address timeout st
  = match client_connect address timeout with
    | inl e => (Raise e, joining address st)
    | inr false => (Raise (connection_error address),
                    set_client (Some false) (joining address st))
    | inr true => (Return tt, joined address st)
    end.
Proof.
  unfold connect, joined, joining, await_start_notify, assign_client, assign_connected.
  munfold. rewrite record_extends, suspend_returns.
  destruct (client_connect address timeout) as [e|[|]]; [reflexivity| |reflexivity].
  cbn [link_up client set_client negb].
  rewrite record_extends, log_services_spec, extends_extends.
  rewrite suspend_returns.
  destruct (start_notify address SDN_RESPONSE_UUID) as [e1|];
    cbn [subscription_line]; rewrite record_extends, suspend_returns;
    destruct (start_notify address SDN_RADIO_REQ_UUID) as [e2|]; reflexivity.
Qed.

Lemma transmissions_service_lines (services : list Bleak.service) :
  transmissions (service_lines services) = [].
Proof.
  induction services as [|service services IH]; [reflexivity|].
  unfold service_lines. cbn [flat_map]. fold (service_lines services).
  cbn [transmissions app]. rewrite transmissions_app, IH, app_nil_r.
  induction (Bleak.characteristics service) as [|c chars IHc]; [reflexivity|exact IHc].
Qed.

Lemma quiet_joining (address : string) (st : state) :
  quiet st (joining address st) /\ link_up (joining address st) = false.
Proof.
  unfold joining.
  destruct (suspend_quiet
              (set_client (Some false)
                 (extends st [Log INFO ("Conectando a " ++ address ++ "...")])))
    as (Hq & Hl & _).
  split; [|now apply Hl].
  eapply quiet_trans; [|exact Hq]. split; [reflexivity|].
  cbn. now rewrite transmissions_app, app_nil_r.
Qed.

(** X14. Degraded mode.  When [client.connect()] leaves the link up,
    [connect] returns normally with [self.connected] set, whatever the two
    subscriptions do: a [start_notify] that raises only leaves a warning in
    the log.  The line of the radio-request subscription is the last thing
    logged, and nothing is written to the peer. *)
Theorem connect_tolerates_failed_subscriptions (address : string) (timeout : Q) (st : state) :
  client_connect address timeout = inr true ->
  exists st' before,
    connect address timeout st = (Return tt, st')
    /\ connected st' = true
    /\ transmissions (trace st') = transmissions (trace st)
    /\ trace st'
       = (before
          ++ [subscription_line "RADIO_REQUEST" (start_notify address SDN_RADIO_REQ_UUID)])%list
    /\ In (subscription_line "RESPONSE" (start_notify address SDN_RESPONSE_UUID)) before
    /\ (forall e, start_notify address SDN_RESPONSE_UUID = Some e ->
        In (Log WARNING ("No se pudo suscribir a RESPONSE: " ++ exn_str e)) (trace st'))
    /\ (forall e, start_notify address SDN_RADIO_REQ_UUID = Some e ->
        In (Log WARNING ("No se pudo suscribir a RADIO_REQUEST: " ++ exn_str e)) (trace st')).
Proof.
  intros Hc. rewrite connect_spec, Hc. unfold joined.
  set (greeted := extends (set_connected true (set_client (Some true) (joining address st))) _).
  set (first := extends (snd (suspend greeted)) _).
  destruct (quiet_joining address st) as [[_ Ht0] _].
  destruct (suspend_quiet greeted) as ([Hc1 Ht1] & _ & _).
  destruct (suspend_quiet first) as ([Hc2 Ht2] & _ & evs2 & Hev2).
  eexists _, _. split; [reflexivity|]. split; [|split; [|split; [reflexivity|]]].
  - cbn [connected extends set_trace]. rewrite Hc2. unfold first.
    cbn [connected extends set_trace]. rewrite Hc1. reflexivity.
  - cbn [trace extends set_trace]. rewrite transmissions_app, Ht2. unfold first.
    cbn [trace extends set_trace]. rewrite transmissions_app, Ht1. unfold greeted.
    cbn [trace extends set_trace set_connected set_client].
    rewrite transmissions_app. cbn [transmissions].
    rewrite transmissions_service_lines, Ht0.
    destruct (start_notify address SDN_RESPONSE_UUID),
             (start_notify address SDN_RADIO_REQ_UUID); cbn; now rewrite !app_nil_r.
  - assert (Hin : In (subscription_line "RESPONSE" (start_notify address SDN_RESPONSE_UUID))
                     (trace (snd (suspend first)))).
    { rewrite Hev2. apply in_or_app. left. unfold first. cbn [trace extends set_trace].
      apply in_or_app. right. now left. }
    split; [exact Hin|]. split.
    + intros e He. cbn [trace extends set_trace]. apply in_or_app. left.
      rewrite He in Hin. exact Hin.
    + intros e He. cbn [trace extends set_trace]. apply in_or_app. right.
      rewrite He. now left.
Qed.

(** X15. When [client.connect()] raises, [connect] raises the same
    exception; when it returns with the link down, [connect] raises
    ConnectionError "No se pudo conectar a <address>".  Either way
    [self.connected] keeps its value, the controller is left with a client
    that is not connected, and nothing was written to the peer. *)
Theorem connect_failure (address : string) (timeout : Q) (st : state) :
  client_connect address timeout <> inr true ->
  exists e st',
    connect address timeout st = (Raise e, st')
    /\ (forall e0, client_connect address timeout = inl e0 -> e = e0)
    /\ (client_connect address timeout = inr false -> e = connection_error address)
    /\ connected st' = connected st
    /\ link_up st' = false
    /\ transmissions (trace st') = transmissions (trace st).
Proof.
  intros Hc. rewrite connect_spec.
  destruct (quiet_joining address st) as [[Hcon Ht] Hl].
  destruct (client_connect address timeout) as [e|[|]]; [|congruence|].
  - exists e. eexists. split; [reflexivity|]. split; [intros e0 He; now injection He|].
    split; [discriminate|]. split; [exact Hcon|]. split; [exact Hl|exact Ht].
  - eexists _, _. split; [reflexivity|]. split; [discriminate|]. split; [reflexivity|].
    split; [exact Hcon|]. split; [reflexivity|exact Ht].
Qed.

Lemma disconnect_spec (st : state) :
  disconnect st
  = (Return tt,
     if link_up st then
       set_connected false
         (extends (match client_disconnect with
                   | Some _ => snd (suspend st)
                   | None => set_client (Some false) (snd (suspend st))
                   end)
                  [Log INFO "Desconectado del GATT Server"])
     else set_connected false st).
Proof.
  unfold disconnect, assign_connected, assign_client. unfold bind at 1.
  destruct (link_up st); [|reflexivity].
  munfold. rewrite suspend_returns. destruct client_disconnect; reflexivity.
Qed.

(** X16. [disconnect] never raises and always leaves [self.connected]
    false, without writing to the peer.  Without a live link that is all it
    does.  With a live link it awaits [client.disconnect()] and then logs
    "Desconectado del GATT Server", also when that call raised (the
    exception is swallowed); when the call returned, the link is down
    afterwards. *)
Theorem disconnect_never_raises (st : state) :
  exists st',
    disconnect st = (Return tt, st')
    /\ connected st' = false
    /\ transmissions (trace st') = transmissions (trace st)
    /\ (link_up st = false -> st' = set_connected false st)
    /\ (link_up st = true ->
        (exists before,
           trace st' = (before ++ [Log INFO "Desconectado del GATT Server"])%list)
        /\ (client_disconnect = None -> link_up st' = false)).
Proof.
  rewrite disconnect_spec. eexists. split; [reflexivity|].
  destruct (suspend_quiet st) as ([_ Ht] & _ & _).
  destruct (link_up st) eqn:Hl.
  - split; [reflexivity|]. split.
    { cbn [trace set_connected extends set_trace]. rewrite transmissions_app.
      destruct client_disconnect; cbn [trace set_client]; rewrite Ht; cbn;
        now rewrite app_nil_r. }
    split; [discriminate|]. intros _. split.
    + eexists. reflexivity.
    + intros ->. reflexivity.
  - split; [reflexivity|]. split; [reflexivity|]. split; [reflexivity|discriminate].
Qed.

(** *** Main *)

Lemma joined_facts (address : string) (st : state) :
  connected (joined address st) = true
  /\ transmissions (trace (joined address st)) = transmissions (trace st).
Proof.
  unfold joined.
  set (greeted := extends (set_connected true (set_client (Some true) (joining address st))) _).
  set (first := extends (snd (suspend greeted)) _).
  destruct (quiet_joining address st) as [[_ Ht0] _].
  destruct (suspend_quiet greeted) as ([Hc1 Ht1] & _ & _).
  destruct (suspend_quiet first) as ([Hc2 Ht2] & _ & _).
  split.
  - cbn [connected extends set_trace]. rewrite Hc2. unfold first.
    cbn [connected extends set_trace]. rewrite Hc1. reflexivity.
  - cbn [trace extends set_trace]. rewrite transmissions_app, Ht2. unfold first.
    cbn [trace extends set_trace]. rewrite transmissions_app, Ht1. unfold greeted.
    cbn [trace extends set_trace set_connected set_client].
    rewrite transmissions_app. cbn [transmissions].
    rewrite transmissions_service_lines, Ht0.
    destruct (start_notify address SDN_RESPONSE_UUID),
             (start_notify address SDN_RADIO_REQ_UUID); cbn; now rewrite !app_nil_r.
Qed.

Lemma disconnect_facts (st : state) :
  exists st',
    disconnect st = (Return tt, st')
    /\ connected st' = false
    /\ transmissions (trace st') = transmissions (trace st)
    /\ exists evs, trace st' = (trace st ++ evs)%list.
Proof.
  rewrite disconnect_spec. eexists. split; [reflexivity|].
  destruct (suspend_quiet st) as ([_ Ht] & _ & evs & Hev).
  destruct (link_up st).
  - split; [reflexivity|]. split.
    + cbn [trace set_connected extends set_trace]. rewrite transmissions_app.
      destruct client_disconnect; cbn [trace set_client]; rewrite Ht; cbn;
        now rewrite app_nil_r.
    + exists (evs ++ [Log INFO "Desconectado del GATT Server"])%list.
      cbn [trace set_connected extends set_trace].
      destruct client_disconnect; cbn [trace set_client]; rewrite Hev;
        now rewrite app_assoc.
  - split; [reflexivity|]. split; [reflexivity|]. exists []. cbn. now rewrite app_nil_r.
Qed.

Lemma try_finally_ends {A} (body : M A) (final : M unit) :
  (forall s, exists s', final s = (Return tt, s') /\ connected s' = false) ->
  forall st,
    fst (try_finally body final st) = OutOfFuel
    \/ connected (snd (try_finally body final st)) = false.
Proof.
  intros Hfinal st. unfold try_finally.
  destruct (body st) as [[a|e|] s1]; [| |now left];
    destruct (Hfinal s1) as (s' & -> & Hc); right; exact Hc.
Qed.

Lemma bind_return {A B} (m : M A) (k : A -> M B) (st st' : state) (a : A) :
  m st = (Return a, st') -> bind m k st = k a st'.
Proof. intros H. unfold bind. now rewrite H. Qed.

Lemma bind_raise {A B} (m : M A) (k : A -> M B) (st st' : state) (e : exn) :
  m st = (Raise e, st') -> bind m k st = (Raise e, st').
Proof. intros H. unfold bind. now rewrite H. Qed.

(** The first step of [connect_and_serve]: the connection, with its
    failure logged. *)
Lemma join_step (target : string) (st : state) :
  try_except
    (connect target (inject_Z 15) ;; ret true)
    (fun e => log_error ("Error conectando: " ++ exn_str e) ;; ret false) st
  = match client_connect target (inject_Z 15) with
    | inl e =>
      (Return false,
       extends (joining target st) [Log ERROR ("Error conectando: " ++ exn_str e)])
    | inr false =>
      (Return false,
       extends (set_client (Some false) (joining target st))
         [Log ERROR ("Error conectando: " ++ exn_str (connection_error target))])
    | inr true => (Return true, joined target st)
    end.
Proof.
  unfold try_except, bind. rewrite connect_spec.
  destruct (client_connect target (inject_Z 15)) as [e|[|]]; reflexivity.
Qed.

Lemma connect_and_serve_ends (fuel : nat) (a : Cli.args) (target : string) (st : state) :
  connected st = false ->
  fst (connect_and_serve fuel a target st) = OutOfFuel
  \/ connected (snd (connect_and_serve fuel a target st)) = false.
Proof.
  intros Hc. pose proof (join_step target st) as Hj.
  destruct (quiet_joining target st) as [[Hcon _] _].
  unfold connect_and_serve.
  destruct (client_connect target (inject_Z 15)) as [e|[|]];
    rewrite (bind_return _ _ _ _ _ Hj); cbn [negb].
  - right. cbn. congruence.
  - destruct (truthy (Cli.send a)).
    + match goal with
      | |- context [try_finally ?b ?f] =>
        destruct (try_finally_ends b f) with (st := joined target st) as [Hout|Hend]
      end.
      * intros s. destruct (disconnect_facts s) as (s' & Hd & Hc' & _). now exists s'.
      * left. unfold bind. destruct (try_finally _ _ _) as [r s1]. cbn in Hout. now subst r.
      * unfold bind. destruct (try_finally _ _ _) as [[u|e|] s1]; cbn in *; auto.
    + match goal with
      | |- context [try_finally ?b ?f] =>
        destruct (try_finally_ends b f) with (st := joined target st) as [Hout|Hend]
      end.
      * intros s. destruct (disconnect_facts s) as (s' & Hd & Hc' & _).
        eexists. rewrite (bind_return _ _ _ _ _ Hd). munfold.
        split; [reflexivity|exact Hc'].
      * left. unfold bind. destruct (try_finally _ _ _) as [r s1]. cbn in Hout. now subst r.
      * unfold bind. destruct (try_finally _ _ _) as [[u|e|] s1]; cbn in *; auto.
  - right. cbn. congruence.
Qed.

(** X17. Whenever [main] ends, by returning or by raising, in whatever
    mode, [self.connected] of its controller is false: the controller never
    got connected, or the [finally] clause has run [disconnect]. *)
Theorem main_ends_disconnected (fuel : nat) (a : Cli.args) (st : state) :
  fst (main fuel a st) <> OutOfFuel ->
  connected (snd (main fuel a st)) = false.
Proof.
  unfold main. rewrite (bind_return _ _ st (fresh st) tt eq_refl).
  assert (Hwait : forall s, connected s = false ->
            connected (snd (suspend (extends s [scan_start (Cli.timeout a)]))) = false).
  { intros s Hs.
    destruct (suspend_quiet (extends s [scan_start (Cli.timeout a)])) as ([Hc _] & _).
    rewrite Hc. exact Hs. }
  destruct (Cli.scan a).
  - intros _. unfold bind. rewrite scan_spec.
    destruct (discover (Cli.timeout a)); apply (Hwait (fresh st) eq_refl).
  - destruct (truthy (Cli.mac a)).
    + intros Hend.
      destruct (connect_and_serve_ends fuel a (name_or_empty (Cli.mac a)) (fresh st) eq_refl)
        as [Hout|Hc]; [now elim Hend|exact Hc].
    + rewrite (bind_return _ _ _ _ tt
                 (eq_refl : log_info "Buscando teléfono SDN..." (fresh st) = (Return tt, _))).
      pose proof (scan_spec (Cli.timeout a)
                    (record (Log INFO "Buscando teléfono SDN...") (fresh st))) as Hscan.
      pose proof (Hwait (record (Log INFO "Buscando teléfono SDN...") (fresh st)) eq_refl)
        as Hc.
      destruct (discover (Cli.timeout a)) as [e|discovered].
      * intros _. rewrite (bind_raise _ _ _ _ _ Hscan). exact Hc.
      * rewrite (bind_return _ _ _ _ _ Hscan).
        destruct (filter advertises_sdn discovered) as [|first rest].
        -- intros _. munfold. exact Hc.
        -- match goal with
           | |- context [bind (log_info ?line) ?k ?s] =>
             rewrite (bind_return (log_info line) k s _ tt eq_refl)
           end.
           intros Hend.
           match goal with
           | |- context [connect_and_serve fuel a ?t ?s] =>
             destruct (connect_and_serve_ends fuel a t s Hc) as [Hout|Hc2];
               [now elim Hend|exact Hc2]
           end.
Qed.

(** X18. In scan mode [main] only scans: it returns the report of the
    devices that advertise the SDN service (or raises what the discovery
    raised), and writes nothing to the peer. *)
Theorem main_scan_mode (fuel : nat) (a : Cli.args) (st : state) :
  Cli.scan a = true ->
  fst (main fuel a st)
  = match discover (Cli.timeout a) with
    | inl e => Raise e
    | inr discovered => Return (scan_report (filter advertises_sdn discovered))
    end
  /\ transmissions (trace (snd (main fuel a st))) = transmissions (trace st).
Proof.
  intros Hs. unfold main. rewrite (bind_return _ _ st (fresh st) tt eq_refl), Hs.
  unfold bind. rewrite scan_spec.
  destruct (suspend_quiet (extends (fresh st) [scan_start (Cli.timeout a)]))
    as ([_ Ht] & _).
  assert (Ht' : transmissions
                  (trace (snd (suspend (extends (fresh st) [scan_start (Cli.timeout a)]))))
                = transmissions (trace st)).
  { rewrite Ht. cbn. now rewrite transmissions_app, app_nil_r. }
  destruct (discover (Cli.timeout a)) as [e|discovered]; (split; [reflexivity|]).
  - exact Ht'.
  - cbn [snd ret trace extends set_trace]. rewrite transmissions_app, Ht'.
    destruct (effects_scan_lines discovered) as [He _].
    assert (Hlines : forall l, effects l = [] -> transmissions l = []).
    { induction l as [|ev l IH]; [reflexivity|]. destruct ev; cbn; try discriminate.
      exact IH. }
    rewrite transmissions_app, (Hlines _ He).
    destruct (is_nil _); cbn; now rewrite ?app_nil_r.
Qed.

(** X19. With an address given, when the connection fails [main] logs
    "Error conectando: ..." with the text of the exception and returns
    normally: it prints nothing, runs neither the send nor the loop, makes
    no call to disconnect, and nothing is written to the peer. *)
Theorem main_connect_failure (fuel : nat) (a : Cli.args) (address : string) (st : state) :
  Cli.scan a = false ->
  Cli.mac a = Some address ->
  nonempty address = true ->
  client_connect address (inject_Z 15) <> inr true ->
  exists e st' before,
    main fuel a st = (Return [], st')
    /\ (forall e0, client_connect address (inject_Z 15) = inl e0 -> e = e0)
    /\ (client_connect address (inject_Z 15) = inr false -> e = connection_error address)
    /\ trace st' = (before ++ [Log ERROR ("Error conectando: " ++ exn_str e)])%list
    /\ transmissions (trace st') = transmissions (trace st)
    /\ link_up st' = false.
Proof.
  intros Hs Hm Hn Hc. unfold main.
  rewrite (bind_return _ _ st (fresh st) tt eq_refl), Hs, Hm.
  cbn [truthy name_or_empty]. rewrite Hn. unfold connect_and_serve.
  pose proof (join_step address (fresh st)) as Hj.
  destruct (quiet_joining address (fresh st)) as [[_ Ht] Hl].
  destruct (client_connect address (inject_Z 15)) as [e|[|]]; [|congruence|];
    rewrite (bind_return _ _ _ _ _ Hj); cbn [negb ret].
  - exists e. eexists _, _. split; [reflexivity|]. split; [intros e0 He; now injection He|].
    split; [discriminate|]. split; [reflexivity|]. split; [|exact Hl].
    cbn [trace extends set_trace]. rewrite transmissions_app, Ht. cbn. now rewrite app_nil_r.
  - eexists _, _, _. split; [reflexivity|]. split; [discriminate|]. split; [reflexivity|].
    split; [reflexivity|]. split; [|reflexivity].
    cbn [trace extends set_trace set_client]. rewrite transmissions_app, Ht. cbn.
    now rewrite app_nil_r.
Qed.

(** X20. In send mode, text that is not JSON is reported and nothing is
    sent: once connected, [main] logs "JSON inválido: ..." and still runs
    [disconnect]; it returns normally, nothing was written to the peer and
    [self.connected] is false. *)
Theorem main_send_invalid_json (fuel : nat) (a : Cli.args) (address text : string)
    (e : exn) (st : state) :
  Cli.scan a = false ->
  Cli.mac a = Some address -> nonempty address = true ->
  client_connect address (inject_Z 15) = inr true ->
  Cli.send a = Some text -> nonempty text = true ->
  json_loads text = inl e -> is_json_error e = true ->
  exists st',
    main fuel a st = (Return [], st')
    /\ In (Log ERROR ("JSON inválido: " ++ exn_str e)) (trace st')
    /\ transmissions (trace st') = transmissions (trace st)
    /\ connected st' = false.
Proof.
  intros Hs Hm Hn Hc Hsend Hns Hj He. unfold main.
  rewrite (bind_return _ _ st (fresh st) tt eq_refl), Hs, Hm.
  cbn [truthy name_or_empty]. rewrite Hn. unfold connect_and_serve.
  pose proof (join_step address (fresh st)) as Hstep. rewrite Hc in Hstep.
  rewrite (bind_return _ _ _ _ _ Hstep). cbn [negb]. rewrite Hsend.
  cbn [truthy name_or_empty]. rewrite Hns.
  destruct (joined_facts address (fresh st)) as [_ Ht].
  set (J := joined address (fresh st)) in *.
  destruct (disconnect_facts (extends J [Log ERROR ("JSON inválido: " ++ exn_str e)]))
    as (s' & Hd & Hcon & Htd & evs & Hev).
  assert (Hbody :
    try_finally
      (try_except
         (command <- of_sum (json_loads text) ;;
          send_command command ;;
          log_info "Comando enviado, esperando 3s para response..." ;;
          asyncio_sleep (inject_Z 3))
         (fun e0 => if is_json_error e0
                    then log_error ("JSON inválido: " ++ exn_str e0) else raise e0))
      disconnect J = (Return tt, s')).
  { unfold try_finally, try_except. unfold bind at 1. rewrite Hj. unfold of_sum, raise.
    rewrite He. unfold log_error, emit. rewrite record_extends, Hd. reflexivity. }
  rewrite (bind_return _ _ _ _ _ Hbody). exists s'. split; [reflexivity|]. split.
  - rewrite Hev. apply in_or_app. left. cbn [trace extends set_trace].
    apply in_or_app. right. now left.
  - split; [|exact Hcon]. rewrite Htd. cbn [trace extends set_trace].
    rewrite transmissions_app, Ht. cbn. now rewrite app_nil_r.
Qed.




(** X22. After [disconnect], sending is refused.  When the controller had
    no live link, or [client.disconnect()] returned, a [send_command] that
    follows [disconnect] writes nothing and only logs that it is not
    connected. *)
Theorem send_after_disconnect_refused (command : pyval) (st : state) :
  link_up st = false \/ client_disconnect = None ->
  exists st' before,
    (disconnect ;; send_command command) st = (Return tt, st')
    /\ transmissions (trace st') = transmissions (trace st)
    /\ trace st'
       = (before ++ [Log ERROR "No conectado — no se puede enviar comando"])%list.
Proof.
  intros Hcase. destruct (disconnect_facts st) as (s1 & Hd & _ & Ht & _).
  assert (Hl : link_up s1 = false).
  { rewrite disconnect_spec in Hd. injection Hd as <-.
    destruct (link_up st) eqn:Hup; [|exact Hup].
    destruct Hcase as [Hdown|Hnone]; [discriminate|]. rewrite Hnone. reflexivity. }
  rewrite (bind_return _ _ _ _ _ Hd), (send_command_down command s1 Hl).
  eexists _, _. split; [reflexivity|]. split; [|reflexivity].
  cbn [trace extends set_trace]. rewrite transmissions_app, Ht. cbn. now rewrite app_nil_r.
Qed.

Lemma joined_schedule (address : string) (st : state) :
  schedule (joined address st) = skipn 3 (schedule st).
Proof.
  unfold joined, joining.
  set (start := set_client (Some false)
                  (extends st [Log INFO ("Conectando a " ++ address ++ "...")])).
  set (greeted := extends (set_connected true (set_client (Some true) (snd (suspend start)))) _).
  set (first := extends (snd (suspend greeted)) _).
  destruct (suspend_consumed start) as (H1 & _).
  destruct (suspend_consumed greeted) as (H2 & _).
  destruct (suspend_consumed first) as (H3 & _).
  cbn [schedule extends set_trace]. rewrite H3. unfold first.
  cbn [schedule extends set_trace]. rewrite H2. unfold greeted.
  cbn [schedule extends set_trace set_connected set_client]. rewrite H1.
  change (schedule start) with (schedule st). rewrite !skipn_skipn. reflexivity.
Qed.

(** X23. Bridge mode.  With an address and no command to send, once
    connected [main] runs the loop until it is stopped: if a signal arrives
    or the link is lost during the k-th suspension after the three of
    [connect], [main] returns within k+1 passes of the loop, having run
    [disconnect]; its last log line is "Bridge cerrado" and
    [self.connected] is false. *)
Theorem main_bridge_stops (fuel k : nat) (a : Cli.args) (address : string) (st : state) :
  Cli.scan a = false ->
  Cli.mac a = Some address -> nonempty address = true ->
  client_connect address (inject_Z 15) = inr true ->
  truthy (Cli.send a) = false ->
  halts (nth (3 + k) (schedule st) []) = true ->
  k < fuel ->
  exists st' before,
    main fuel a st = (Return [], st')
    /\ trace st' = (before ++ [Log INFO "Bridge cerrado"])%list
    /\ connected st' = false.
Proof.
  intros Hs Hm Hn Hc Hsend Hh Hk. unfold main.
  rewrite (bind_return _ _ st (fresh st) tt eq_refl), Hs, Hm.
  cbn [truthy name_or_empty]. rewrite Hn. unfold connect_and_serve.
  pose proof (join_step address (fresh st)) as Hstep. rewrite Hc in Hstep.
  rewrite (bind_return _ _ _ _ _ Hstep). cbn [negb]. rewrite Hsend.
  set (J := joined address (fresh st)).
  assert (Hh' : halts (nth k (schedule (extends J banner)) []) = true).
  { change (schedule (extends J banner)) with (schedule J). unfold J.
    rewrite joined_schedule, nth_skipn. exact Hh. }
  destruct (main_loop_halts fuel k (extends J banner) Hh' Hk) as (s1 & Hrun & _).
  destruct (disconnect_facts (record (Log INFO "Loop terminado") s1))
    as (s' & Hd & Hcon & _).
  assert (Hbody :
    try_finally
      (try_except (run_loop fuel)
                  (fun e => log_error ("Error en loop: " ++ exn_str e)))
      (disconnect ;; log_info "Bridge cerrado") J
    = (Return tt, record (Log INFO "Bridge cerrado") s')).
  { unfold try_finally, try_except. rewrite run_loop_unfold.
    rewrite (bind_return _ _ _ _ _ Hrun). unfold log_info at 1, emit at 1.
    rewrite (bind_return _ _ _ _ _ Hd). reflexivity. }
  rewrite (bind_return _ _ _ _ _ Hbody). eexists _, _. split; [reflexivity|].
  split; [reflexivity|exact Hcon].
Qed.

(** X24. Without an address, when the scan finds no device that
    advertises the SDN service, [main] makes no attempt to connect: it logs
    that the phone was not found and the tip, prints nothing, returns
    normally, and the controller has no live link. *)
Theorem main_no_device (fuel : nat) (a : Cli.args) (discovered : list Bleak.device)
    (st : state) :
  Cli.scan a = false ->
  truthy (Cli.mac a) = false ->
  discover (Cli.timeout a) = inr discovered ->
  filter advertises_sdn discovered = [] ->
  exists st' before,
    main fuel a st = (Return [], st')
    /\ trace st'
       = (before
          ++ [Log ERROR "No se encontró el teléfono SDN. ¿Está advertiseando?";
              Log INFO "Tip: Ejecuta 'ble start' en la consola de la app"])%list
    /\ transmissions (trace st') = transmissions (trace st)
    /\ link_up st' = false.
Proof.
  intros Hs Hm Hd Hnone. unfold main.
  rewrite (bind_return _ _ st (fresh st) tt eq_refl), Hs, Hm.
  rewrite (bind_return _ _ _ _ tt
             (eq_refl : log_info "Buscando teléfono SDN..." (fresh st) = (Return tt, _))).
  pose proof (scan_spec (Cli.timeout a)
                (record (Log INFO "Buscando teléfono SDN...") (fresh st))) as Hscan.
  rewrite Hd, Hnone in Hscan. rewrite (bind_return _ _ _ _ _ Hscan). munfold.
  set (waited := snd (suspend _)).
  destruct (suspend_quiet
              (extends (record (Log INFO "Buscando teléfono SDN...") (fresh st))
                       [scan_start (Cli.timeout a)])) as ([_ Ht] & Hl & _).
  fold waited in Ht, Hl.
  eexists _, _. split; [reflexivity|]. split.
  { cbn [trace record extends set_trace]. symmetry. apply (app_assoc _ [_] [_]). }
  split.
  - cbn [trace record extends set_trace]. rewrite !transmissions_app, Ht.
    destruct (effects_scan_lines discovered) as [He _].
    assert (Hlines : forall l, effects l = [] -> transmissions l = []).
    { induction l as [|ev l IH]; [reflexivity|]. destruct ev; cbn; try discriminate.
      exact IH. }
    rewrite (Hlines _ He). cbn. rewrite !app_nil_r, !transmissions_app. cbn.
    now rewrite !app_nil_r.
  - change (link_up waited = false). apply Hl. reflexivity.
Qed.

End Lifecycle.

(* ================================================================== *)
(** * The further properties on concrete runs *)

Section MoreRuns.
Import SdnBleController Reference Scenario.

Lemma radio_request_non_string_action_witness :
  bytes_decode numeric_action_request = inr numeric_action_text
  /\ json_loads numeric_action_text = inr (PyDict [("action", PyInt 5)])
  /\ exists st',
       _on_radio_request_notify (R := runtime) (W := adb_succeeds)
         SDN_RADIO_REQ_UUID numeric_action_request init = (Return tt, st')
       /\ pending_commands st'
          = (pending_commands init
             ++ [confirmation "UNKNOWN" ("Unknown action: " ++ py_repr (PyInt 5))])%list
       /\ exec_count (trace st') = exec_count (trace init).
Proof.
  assert (Hd : bytes_decode numeric_action_request = inr numeric_action_text)
    by (vm_compute; reflexivity).
  assert (Hp : json_loads numeric_action_text = inr (PyDict [("action", PyInt 5)]))
    by (vm_compute; reflexivity).
  split; [exact Hd|]. split; [exact Hp|].
  exact (radio_request_non_string_action (R := runtime) (W := adb_succeeds)
           SDN_RADIO_REQ_UUID numeric_action_request numeric_action_text
           [("action", PyInt 5)] (PyInt 5) init Hd Hp eq_refl eq_refl).
Defined.


Lemma run_loop_stops_witness :
  halts (nth 1 (schedule link_drops) []) = true
  /\ 1 < 2
  /\ exists st' before,
       run_loop (R := runtime) (W := adb_succeeds) 2 link_drops = (Return tt, st')
       /\ alive st' = false
       /\ trace st' = (before ++ [Log INFO "Loop terminado"])%list.
Proof.
  assert (Hk : 1 < 2) by lia.
  split; [reflexivity|]. split; [exact Hk|].
  exact (run_loop_stops (R := runtime) (W := adb_succeeds) 2 1 link_drops eq_refl Hk).
Defined.

Lemma run_loop_runs_until_stopped_witness :
  alive (online [bt_ready] []) = true
  /\ existsb halts (schedule (online [bt_ready] [])) = false
  /\ fst (run_loop (R := runtime) (W := adb_succeeds) 3 (online [bt_ready] [])) = OutOfFuel.
Proof.
  split; [reflexivity|]. split; [reflexivity|].
  exact (run_loop_runs_until_stopped (R := runtime) (W := adb_succeeds) 3
           (online [bt_ready] []) eq_refl eq_refl).
Defined.

Lemma radio_request_answered_next_pass_witness :
  alive request_during_sleep = true
  /\ bytes_decode enable_bt_request = inr enable_bt_text
  /\ json_loads enable_bt_text = inr (PyDict enable_bt_entries)
  /\ exists conf more,
       transmissions
         (trace (snd (run_loop (R := runtime) (W := adb_succeeds) 2 request_during_sleep)))
       = (transmissions (trace request_during_sleep)
          ++ wire (R := runtime) conf :: more)%list
       /\ (forall a, known_of (request_action enable_bt_entries) = Some a ->
           exists ok, conf = spec_confirmation a ok).
Proof.
  assert (Hd : bytes_decode enable_bt_request = inr enable_bt_text)
    by (vm_compute; reflexivity).
  assert (Hp : json_loads enable_bt_text = inr (PyDict enable_bt_entries))
    by (vm_compute; reflexivity).
  split; [reflexivity|]. split; [exact Hd|]. split; [exact Hp|].
  destruct (radio_request_answered_next_pass (R := runtime) (W := adb_succeeds) 0
              request_during_sleep enable_bt_request enable_bt_text enable_bt_entries []
              eq_refl eq_refl eq_refl Hd Hp)
    as (conf & more & Hsent & _ & Hknown).
  exists conf, more. split; [exact Hsent|exact Hknown].
Defined.

Lemma scan_warns_when_empty_witness :
  discover (Stack := nobody) (inject_Z 10) = inr [lookalike]
  /\ exists lines,
       snd (scan_for_sdn_devices (T := text) (S := nobody) (R := runtime) (W := adb_succeeds)
              (inject_Z 10) init)
       = extends (snd (suspend (R := runtime) (W := adb_succeeds)
                         (extends init [scan_start (T := text) (inject_Z 10)]))) lines
       /\ effects lines = []
       /\ (In none_found lines <-> filter (advertises_sdn (T := text)) [lookalike] = []).
Proof.
  split; [reflexivity|].
  exact (scan_warns_when_empty (T := text) (S := nobody) (R := runtime) (W := adb_succeeds)
           (inject_Z 10) init [lookalike] eq_refl).
Defined.

Lemma connect_tolerates_failed_subscriptions_witness :
  client_connect (Stack := deaf) phone_mac (inject_Z 15) = inr true
  /\ exists st',
       connect (S := deaf) (R := runtime) (W := adb_succeeds) phone_mac (inject_Z 15) init
       = (Return tt, st')
       /\ connected st' = true
       /\ In (Log WARNING "No se pudo suscribir a RESPONSE: Characteristic not found")
             (trace st')
       /\ In (Log WARNING "No se pudo suscribir a RADIO_REQUEST: Characteristic not found")
             (trace st').
Proof.
  split; [reflexivity|].
  destruct (connect_tolerates_failed_subscriptions
              (S := deaf) (R := runtime) (W := adb_succeeds) phone_mac (inject_Z 15) init
              eq_refl)
    as (st' & before & Hrun & Hcon & _ & _ & _ & Hresp & Hradio).
  exists st'. split; [exact Hrun|]. split; [exact Hcon|]. split.
  - exact (Hresp _ eq_refl).
  - exact (Hradio _ eq_refl).
Defined.

Lemma connect_failure_witness :
  client_connect (Stack := nobody) phone_mac (inject_Z 15) <> inr true
  /\ exists e st',
       connect (S := nobody) (R := runtime) (W := adb_succeeds) phone_mac (inject_Z 15) init
       = (Raise e, st')
       /\ e = mk_exn BleakError "Device not found"
       /\ connected st' = connected init
       /\ link_up st' = false.
Proof.
  assert (Hc : client_connect (Stack := nobody) phone_mac (inject_Z 15) <> inr true)
    by discriminate.
  split; [exact Hc|].
  destruct (connect_failure (S := nobody) (R := runtime) (W := adb_succeeds)
              phone_mac (inject_Z 15) init Hc)
    as (e & st' & Hrun & Hsame & _ & Hcon & Hl & _).
  exists e, st'. split; [exact Hrun|]. split; [exact (Hsame _ eq_refl)|].
  split; [exact Hcon|exact Hl].
Defined.

Lemma main_ends_disconnected_witness :
  fst (main (T := text) (S := nearby) (R := runtime) (W := adb_succeeds)
         1 (send_args prepare_bt_text) init) <> OutOfFuel
  /\ connected (snd (main (T := text) (S := nearby) (R := runtime) (W := adb_succeeds)
                       1 (send_args prepare_bt_text) init)) = false.
Proof.
  assert (Hend : fst (main (T := text) (S := nearby) (R := runtime) (W := adb_succeeds)
                        1 (send_args prepare_bt_text) init) <> OutOfFuel)
    by (vm_compute; discriminate).
  split; [exact Hend|].
  exact (main_ends_disconnected (T := text) (S := nearby) (R := runtime) (W := adb_succeeds)
           1 (send_args prepare_bt_text) init Hend).
Defined.

Lemma main_scan_mode_witness :
  Cli.scan scan_args = true
  /\ fst (main (T := text) (S := nearby) (R := runtime) (W := adb_succeeds) 0 scan_args init)
     = Return (scan_report (filter (advertises_sdn (T := text)) [lookalike; phone]))
  /\ transmissions
       (trace (snd (main (T := text) (S := nearby) (R := runtime) (W := adb_succeeds)
                      0 scan_args init)))
     = transmissions (trace init).
Proof.
  split; [reflexivity|].
  exact (main_scan_mode (T := text) (S := nearby) (R := runtime) (W := adb_succeeds)
           0 scan_args init eq_refl).
Defined.

Lemma main_connect_failure_witness :
  Cli.scan bridge_args = false
  /\ Cli.mac bridge_args = Some phone_mac
  /\ nonempty phone_mac = true
  /\ client_connect (Stack := nobody) phone_mac (inject_Z 15) <> inr true
  /\ exists st' before,
       main (T := text) (S := nobody) (R := runtime) (W := adb_succeeds) 5 bridge_args init
       = (Return [], st')
       /\ trace st' = (before ++ [Log ERROR "Error conectando: Device not found"])%list
       /\ transmissions (trace st') = transmissions (trace init).
Proof.
  assert (Hc : client_connect (Stack := nobody) phone_mac (inject_Z 15) <> inr true)
    by discriminate.
  split; [reflexivity|]. split; [reflexivity|]. split; [reflexivity|]. split; [exact Hc|].
  destruct (main_connect_failure (T := text) (S := nobody) (R := runtime) (W := adb_succeeds)
              5 bridge_args phone_mac init eq_refl eq_refl eq_refl Hc)
    as (e & st' & before & Hrun & Hsame & _ & Htrace & Ht & _).
  exists st', before. split; [exact Hrun|]. split; [|exact Ht].
  rewrite Htrace, (Hsame _ eq_refl). reflexivity.
Defined.

Lemma main_send_invalid_json_witness :
  json_loads "PREPARE_BT" = inl (mk_exn JSONDecodeError "Expecting value")
  /\ exists st',
       main (T := text) (S := nearby) (R := runtime) (W := adb_succeeds)
         0 (send_args "PREPARE_BT") init = (Return [], st')
       /\ In (Log ERROR "JSON inválido: Expecting value") (trace st')
       /\ transmissions (trace st') = transmissions (trace init)
       /\ connected st' = false.
Proof.
  assert (Hj : json_loads "PREPARE_BT" = inl (mk_exn JSONDecodeError "Expecting value"))
    by (vm_compute; reflexivity).
  split; [exact Hj|].
  exact (main_send_invalid_json (T := text) (S := nearby) (R := runtime) (W := adb_succeeds)
           0 (send_args "PREPARE_BT") phone_mac "PREPARE_BT" _ init
           eq_refl eq_refl eq_refl eq_refl eq_refl eq_refl Hj eq_refl).
Defined.


Lemma send_after_disconnect_refused_witness :
  (link_up (online [] []) = false \/ client_disconnect (Stack := nearby) = None)
  /\ exists st' before,
       (disconnect (S := nearby) (R := runtime) (W := adb_succeeds) ;;
        send_command (R := runtime) (W := adb_succeeds) bt_ready) (online [] [])
       = (Return tt, st')
       /\ transmissions (trace st') = transmissions (trace (online [] []))
       /\ trace st'
          = (before ++ [Log ERROR "No conectado — no se puede enviar comando"])%list.
Proof.
  assert (Hcase : link_up (online [] []) = false \/ client_disconnect (Stack := nearby) = None)
    by (right; reflexivity).
  split; [exact Hcase|].
  exact (send_after_disconnect_refused (S := nearby) (R := runtime) (W := adb_succeeds)
           bt_ready (online [] []) Hcase).
Defined.

Lemma main_bridge_stops_witness :
  halts (nth (3 + 0) (schedule interrupted) []) = true
  /\ 0 < 1
  /\ exists st' before,
       main (T := text) (S := nearby) (R := runtime) (W := adb_succeeds)
         1 bridge_args interrupted = (Return [], st')
       /\ trace st' = (before ++ [Log INFO "Bridge cerrado"])%list
       /\ connected st' = false.
Proof.
  assert (Hk : 0 < 1) by lia.
  split; [reflexivity|]. split; [exact Hk|].
  exact (main_bridge_stops (T := text) (S := nearby) (R := runtime) (W := adb_succeeds)
           1 0 bridge_args phone_mac interrupted
           eq_refl eq_refl eq_refl eq_refl eq_refl eq_refl Hk).
Defined.

Lemma main_no_device_witness :
  discover (Stack := nobody) (Cli.timeout auto_args) = inr [lookalike]
  /\ filter (advertises_sdn (T := text)) [lookalike] = []
  /\ exists st' before,
       main (T := text) (S := nobody) (R := runtime) (W := adb_succeeds) 3 auto_args init
       = (Return [], st')
       /\ trace st'
          = (before
             ++ [Log ERROR "No se encontró el teléfono SDN. ¿Está advertiseando?";
                 Log INFO "Tip: Ejecuta 'ble start' en la consola de la app"])%list
       /\ transmissions (trace st') = transmissions (trace init)
       /\ link_up st' = false.
Proof.
  split; [reflexivity|]. split; [reflexivity|].
  exact (main_no_device (T := text) (S := nobody) (R := runtime) (W := adb_succeeds)
           3 auto_args [lookalike] init eq_refl eq_refl eq_refl eq_refl).
Defined.

(** The scan on the two devices: only the phone is returned, the lookalike
    is logged as possible. *)
Example scenario_scan :
  scan_for_sdn_devices (T := text) (S := nearby) (R := runtime) (W := adb_succeeds)
    (inject_Z 10) init
  = (Return [phone],
     extends init
       [Log INFO "Escaneando dispositivos SDN (timeout=10.0s)...";
        Log INFO "  ? Posible: Xiaomi SDN band (11:22:33:44:55:66) RSSI=-70";
        Log INFO "  ✓ SDN Device: Redmi (AA:BB:CC:DD:EE:FF) RSSI=-60"]).
Proof. vm_compute. reflexivity. Qed.

Example scenario_scan_report :
  fst (main (T := text) (S := nearby) (R := runtime) (W := adb_succeeds) 0 scan_args init)
  = Return [newline ++ "1 dispositivo(s) SDN encontrado(s):";
            "  Redmi                AA:BB:CC:DD:EE:FF  RSSI=-60"].
Proof. vm_compute. reflexivity. Qed.

(** Send mode from the command line to the wire and back to disconnected. *)
Example scenario_main_send :
  main (T := text) (S := nearby) (R := runtime) (W := adb_succeeds)
    0 (send_args prepare_bt_text) init
  = (Return [],
     mk_state (Some false) false [] true
       [Log INFO "Conectando a AA:BB:CC:DD:EE:FF...";
        Log INFO "✓ Conectado a AA:BB:CC:DD:EE:FF";
        Log INFO "  Service: a1b2c3d4-e5f6-7890-abcd-ef1234567890";
        Log INFO "    Char: a1b2c3d4-0001-7890-abcd-ef1234567890 [write]";
        Log INFO "    Char: a1b2c3d4-0002-7890-abcd-ef1234567890 [notify]";
        Log INFO "    Char: a1b2c3d4-0003-7890-abcd-ef1234567890 [notify]";
        Log INFO "✓ Suscrito a RESPONSE notifications";
        Log INFO "✓ Suscrito a RADIO_REQUEST notifications";
        GattWrite SDN_CMD_WRITE_UUID (wire (R := runtime) prepare_bt) true;
        Log INFO "→ Comando enviado: PREPARE_BT";
        Log INFO "Comando enviado, esperando 3s para response...";
        AsyncSleep (inject_Z 3);
        Log INFO "Desconectado del GATT Server"]
       []).
Proof. vm_compute. reflexivity. Qed.

End MoreRuns.
